(** * A shallow embedding of the Flask front end [app.py]

    The program is a thin presentation layer: every view function makes
    one or two calls to a backend through [make_api_request], looks at the
    answer, queues flash notifications and renders a template or redirects.

    The embedding keeps the shape of the Python code.  Views are
    computations in a small state-and-exception monad [M]; the state holds
    the flash queue, the log and the trace of outgoing calls, and the
    exceptions are Python's, with the class hierarchy that the [except]
    clauses of the program test.  Everything that lies outside the
    repository (the network, the interpreter's Unicode tables, [repr]) is
    gathered in one record, [Env], over which every theorem quantifies. *)

From Stdlib Require Import ZArith List String Ascii Bool Lia DecimalString.
From Stdlib Require Import DecimalPos DecimalZ.
Import ListNotations.

Set Warnings "-register-all".

Open Scope string_scope.
Open Scope Z_scope.

(** ** Python values

    A Python [str] is held as a Rocq [string] carrying its UTF-8 encoding:
    equality and concatenation, the only string operations of the program
    besides [int], commute with the encoding.  [pyval] is the image of
    [json.loads]: what [Response.json()] hands to the views and what the
    views hand to [json=], to the templates and to [jsonify]. *)

Inductive pyval : Type :=
| VNone
| VBool (b : bool)
| VInt (z : Z)
| VFloat (literal : string)
| VStr (s : string)
| VList (l : list pyval)
| VDict (d : list (string * pyval)).

(** [x] for an optional string: [None] or a [str]. *)
Definition of_optstr (o : option string) : pyval :=
  match o with
  | Some s => VStr s
  | None => VNone
  end.

(** Key lookup in the association list that stands for a [dict]. *)
Fixpoint assoc {A : Type} (k : string) (d : list (string * A)) : option A :=
  match d with
  | [] => None
  | (k', v) :: d' => if String.eqb k' k then Some v else assoc k d'
  end.

(** [type(v).__name__], as it appears in the text of an [AttributeError]. *)
Definition type_name (v : pyval) : string :=
  match v with
  | VNone => "NoneType"
  | VBool _ => "bool"
  | VInt _ => "int"
  | VFloat _ => "float"
  | VStr _ => "str"
  | VList _ => "list"
  | VDict _ => "dict"
  end.

(** [str(n)] for an [int]. *)
Definition str_of_int (z : Z) : string :=
  NilZero.string_of_int (Z.to_int z).

Definition str_of_nat (n : nat) : string :=
  NilZero.string_of_uint (Nat.to_uint n).

(** ** Exceptions

    The classes that can reach one of the program's [except] clauses.  The
    first group derives from [requests.exceptions.RequestException]; the
    second from [Exception] only; the last two from [BaseException] only. *)

Inductive exc_class : Type :=
| RequestException
| ConnectionError
| Timeout
| ConnectTimeout
| ReadTimeout
| HTTPError
| TooManyRedirects
| MissingSchema
| InvalidURL
| ChunkedEncodingError
| ContentDecodingError
| JSONDecodeError
| ValueError
| AttributeError
| TypeError
| OtherException (name : string)
| KeyboardInterrupt
| SystemExit.

Record exception : Type := mkExc {
  exc_class_of : exc_class;
  exc_str : string          (* [str(e)] *)
}.

(** [isinstance(e, requests.exceptions.RequestException)] *)
Definition is_RequestException (e : exception) : bool :=
  match exc_class_of e with
  | RequestException | ConnectionError | Timeout | ConnectTimeout
  | ReadTimeout | HTTPError | TooManyRedirects | MissingSchema
  | InvalidURL | ChunkedEncodingError | ContentDecodingError
  | JSONDecodeError => true
  | _ => false
  end.

(** [isinstance(e, Exception)] *)
Definition is_Exception (e : exception) : bool :=
  match exc_class_of e with
  | KeyboardInterrupt | SystemExit => false
  | _ => true
  end.

(** A bare [except:] takes everything. *)
Definition is_BaseException (e : exception) : bool := true.

(** ** The backend's answers *)

(** [requests.Response], as far as the program reads it: the status code
    and what [.json()] does, return a value or raise. *)
Record Response : Type := mkResponse {
  status_code : Z;
  json : exception + pyval
}.

(** [Response.ok] (requests/models.py): [True] unless [raise_for_status()]
    raises, which it does for 400 <= status < 600. *)
Definition ok (r : Response) : bool :=
  negb ((400 <=? status_code r) && (status_code r <? 600)).

(** [Response.__bool__] (requests/models.py) is [return self.ok]: an answer
    with a client or server error status is falsy in [if response:] and in
    [response and ...]. *)
Definition Response_bool (r : Response) : bool := ok r.

(** Truth value of the [response] variable, which holds a [Response] or
    [None]. *)
Definition truthy (response : option Response) : bool :=
  match response with
  | Some r => Response_bool r
  | None => false
  end.

(** [response and response.status_code == code] *)
Definition and_status_is (response : option Response) (code : Z) : bool :=
  match response with
  | Some r => Response_bool r && (status_code r =? code)
  | None => false
  end.

(** One call of [requests.get/post/put/delete]. *)
Record HttpCall : Type := mkCall {
  verb : string;
  url : string;
  json_payload : option pyval;
  timeout : Z
}.

Inductive net_result : Type :=
| Answers (r : Response)
| Fails (e : exception).

(** ** What lies outside the repository

    Within one invocation no view sends the same call twice, so a function
    from calls to results covers every behaviour of the network. *)
Record Env : Type := mkEnv {
  (** [os.getenv('API_BASE_URL')], [None] when unset *)
  API_BASE_URL : option string;
  (** the [requests] library and whatever is behind it *)
  network : HttpCall -> net_result;
  (** [int] first rewrites a non-ASCII [str]: Unicode decimal digits
      become ASCII digits and Unicode white space becomes a blank *)
  unicode_to_ascii : string -> string;
  (** [sys.get_int_max_str_digits()], 0 for no limit *)
  int_max_str_digits : nat;
  (** [repr] *)
  repr : pyval -> string
}.

(** ** State and exceptions *)

Record Notification : Type := mkNote {
  category : string;
  message : string
}.

Record State : Type := mkState {
  flashes : list Notification;          (* the session's pending flashes *)
  log : list (string * string);         (* level, text *)
  calls : list HttpCall                 (* calls handed to [requests] *)
}.

Inductive outcome (A : Type) : Type :=
| Return (a : A)
| Raise (e : exception).
Arguments Return {A} a.
Arguments Raise {A} e.

Definition M (A : Type) : Type := State -> outcome A * State.

Definition ret {A} (a : A) : M A := fun st => (Return a, st).

Definition raise {A} (e : exception) : M A := fun st => (Raise e, st).

Definition bind {A B} (m : M A) (k : A -> M B) : M B :=
  fun st =>
    match m st with
    | (Return a, st') => k a st'
    | (Raise e, st') => (Raise e, st')
    end.

Notation "x <- m ;; k" := (bind m (fun x => k))
  (at level 61, m at next level, right associativity).
Notation "m ;;; k" := (bind m (fun _ => k))
  (at level 61, right associativity).

(** [try: body except <classes> as e: handler e].  What [body] did to the
    state before it raised stays done. *)
Definition try_except {A} (body : M A) (catches : exception -> bool)
    (handler : exception -> M A) : M A :=
  fun st =>
    match body st with
    | (Return a, st') => (Return a, st')
    | (Raise e, st') => if catches e then handler e st' else (Raise e, st')
    end.

Definition lift {A} (r : exception + A) : M A :=
  match r with
  | inl e => raise e
  | inr a => ret a
  end.

(** [flash(message, category)] appends to the session's queue. *)
Definition flash (msg cat : string) : M unit :=
  fun st => (Return tt,
             mkState (flashes st ++ [mkNote cat msg]) (log st) (calls st)).

(** [logger.error(text)] *)
Definition logger_error (text : string) : M unit :=
  fun st => (Return tt,
             mkState (flashes st) (log st ++ [("ERROR", text)]) (calls st)).

(** The four entry points of [requests] that the adapter uses.  Each one
    records the call and returns or raises as the network decides. *)
Definition requests_call (env : Env) (c : HttpCall) : M Response :=
  fun st =>
    let st' := mkState (flashes st) (log st) (calls st ++ [c]) in
    match network env c with
    | Answers r => (Return r, st')
    | Fails e => (Raise e, st')
    end.

Definition requests_get (env : Env) (url : string) (timeout : Z) :=
  requests_call env (mkCall "GET" url None timeout).
Definition requests_post (env : Env) (url : string) (data : option pyval)
    (timeout : Z) :=
  requests_call env (mkCall "POST" url data timeout).
Definition requests_put (env : Env) (url : string) (data : option pyval)
    (timeout : Z) :=
  requests_call env (mkCall "PUT" url data timeout).
Definition requests_delete (env : Env) (url : string) (timeout : Z) :=
  requests_call env (mkCall "DELETE" url None timeout).

(** [f"{x}"] for a value: [str(x)], which is [x] itself for a [str] and
    [repr(x)] for every other value JSON can produce. *)
Definition fmt (env : Env) (v : pyval) : string :=
  match v with
  | VStr s => s
  | _ => repr env v
  end.

(** [f"{API_BASE_URL}"] *)
Definition fmt_optstr (o : option string) : string :=
  match o with
  | Some s => s
  | None => "None"
  end.

(** ** The HTTP client adapter *)

Definition make_api_request (env : Env) (method endpoint : string)
    (data : option pyval) : M (option Response) :=
  let url := fmt_optstr (API_BASE_URL env) ++ endpoint in
  try_except
    (response <-
       (if String.eqb method "GET" then requests_get env url 10
        else if String.eqb method "POST" then requests_post env url data 10
        else if String.eqb method "PUT" then requests_put env url data 10
        else if String.eqb method "DELETE" then requests_delete env url 10
        else raise (mkExc ValueError ("Unsupported method: " ++ method))) ;;
     ret (Some response))
    is_RequestException
    (fun e =>
       logger_error ("API request failed: " ++ exc_str e) ;;;
       ret None).

(** ** The built-in [int] on a [str]

    [int(s)] is [PyLong_FromUnicodeObject] in base 10: a non-ASCII string is
    first rewritten to ASCII, then [PyLong_FromString] skips leading white
    space, takes one optional sign, reads digits in which single underscores
    may separate digits, skips trailing white space and insists that nothing
    is left (CPython 3.12, Objects/longobject.c). *)

Definition Py_ISSPACE (c : ascii) : bool :=
  let n := Z.of_nat (nat_of_ascii c) in
  ((9 <=? n) && (n <=? 13)) || (n =? 32).

Definition digit_value (c : ascii) : option Z :=
  let n := Z.of_nat (nat_of_ascii c) in
  if (48 <=? n) && (n <=? 57) then Some (n - 48) else None.

Definition is_ascii (s : string) : bool :=
  forallb (fun c => Z.of_nat (nat_of_ascii c) <? 128) (list_ascii_of_string s).

Fixpoint skip_space (s : string) : string :=
  match s with
  | String c r => if Py_ISSPACE c then skip_space r else s
  | EmptyString => s
  end.

(** The digit loop of [long_from_string_base].  [prev_us] says that the
    previous character was an underscore, [acc] is the value read so far
    and [digits] the number of digits read.  The result is the value, the
    digit count and the unread rest; [None] is a misplaced underscore. *)
Fixpoint scan_digits (prev_us : bool) (acc : Z) (digits : nat) (s : string)
    : option (Z * nat * string) :=
  match s with
  | String c r =>
      if Ascii.eqb c "_"%char then
        if prev_us then None else scan_digits true acc digits r
      else
        match digit_value c with
        | Some d => scan_digits false (acc * 10 + d) (S digits) r
        | None => if prev_us then None else Some (acc, digits, s)
        end
  | EmptyString => if prev_us then None else Some (acc, digits, s)
  end.

(** [long_from_string_base] in base 10: no underscore in front, then the
    digit loop, and at least one digit. *)
Definition long_from_string_base (s : string) : option (Z * nat * string) :=
  if String.prefix "_" s then None
  else
    match scan_digits false 0 0 s with
    | Some (v, digits, rest) =>
        if Nat.eqb digits 0 then None else Some (v, digits, rest)
    | None => None
    end.

(** The optional sign in front of the digits. *)
Definition take_sign (s : string) : Z * string :=
  match s with
  | String c r =>
      if Ascii.eqb c "+"%char then (1, r)
      else if Ascii.eqb c "-"%char then (-1, r)
      else (1, s)
  | EmptyString => (1, s)
  end.

(** [PyLong_FromString(s, &end, 10)] together with the caller's test that
    [end] is the end of the buffer: the value and its digit count, or
    [None] for an invalid literal. *)
Definition PyLong_FromString (s : string) : option (Z * nat) :=
  let '(sign, s2) := take_sign (skip_space s) in
  match long_from_string_base s2 with
  | Some (v, digits, rest) =>
      match skip_space rest with
      | EmptyString => Some (sign * v, digits)
      | String _ _ => None                       (* trailing characters *)
      end
  | None => None
  end.

(** [_PY_LONG_MAX_STR_DIGITS_THRESHOLD] *)
Definition MAX_STR_DIGITS_THRESHOLD : nat := 640.

Definition py_int (env : Env) (s : string) : exception + Z :=
  let a := if is_ascii s then s else unicode_to_ascii env s in
  match PyLong_FromString a with
  | Some (v, digits) =>
      if (MAX_STR_DIGITS_THRESHOLD <? digits)%nat
         && (0 <? int_max_str_digits env)%nat
         && (int_max_str_digits env <? digits)%nat
      then inl (mkExc ValueError
                  ("Exceeds the limit (" ++ str_of_nat (int_max_str_digits env)
                   ++ " digits) for integer string conversion: value has "
                   ++ str_of_nat digits
                   ++ " digits; use sys.set_int_max_str_digits() to increase the limit"))
      else inr v
  | None =>
      inl (mkExc ValueError
             ("invalid literal for int() with base 10: " ++ repr env (VStr s)))
  end.

(** ** Flask: the request, the responses and the route table *)

(** [request], as far as the views read it. *)
Record Request : Type := mkRequest {
  method : string;                       (* [request.method] *)
  form : list (string * string)          (* [request.form], a multi-dict *)
}.

(** [request.form.get(key)]: the first value under [key], or [None]. *)
Definition form_get (req : Request) (key : string) : option string :=
  assoc key (form req).

(** What a view returns. *)
Inductive view_result : Type :=
| Page (template : string) (context : list (string * pyval))
| PageWithStatus (template : string) (context : list (string * pyval))
    (status : Z)
| RedirectTo (location : string)
| JsonResponse (body : pyval).

(** [url_for(endpoint)] over the routes that [app.py] registers; only the
    routes without a path parameter are ever asked for. *)
Definition url_for (endpoint : string) : string :=
  if String.eqb endpoint "index" then "/"
  else if String.eqb endpoint "add_user" then "/add_user"
  else if String.eqb endpoint "health_check" then "/api/health"
  else "".

Definition redirect (location : string) : M view_result :=
  ret (RedirectTo location).

(** [render_template(name, **context)] *)
Definition render_template (name : string) (context : list (string * pyval))
    : M view_result :=
  ret (Page name context).

Definition jsonify (body : pyval) : M view_result :=
  ret (JsonResponse body).

(** [response.json()], on a variable that holds a [Response] or [None]. *)
Definition Response_json (response : option Response) : M pyval :=
  match response with
  | Some r => lift (json r)
  | None =>
      raise (mkExc AttributeError
               "'NoneType' object has no attribute 'json'")
  end.

(** [v.get(key, default)]: only a [dict] has the method. *)
Definition py_get (v : pyval) (key : string) (default : pyval) : M pyval :=
  match v with
  | VDict d =>
      match assoc key d with
      | Some x => ret x
      | None => ret default
      end
  | _ =>
      raise (mkExc AttributeError
               ("'" ++ type_name v ++ "' object has no attribute 'get'"))
  end.

(** The truth value of a [str]. *)
Definition str_truthy (s : string) : bool :=
  negb (String.eqb s "").

(** ** The views

    A view that returns from the middle of its body is written with a
    variable [returned]: [Some r] once a [return r] was reached, [None]
    while the body runs on. *)

(** [GET /]: the list of users. *)
Definition index (env : Env) : M view_result :=
  users <-
    try_except
      (response <- make_api_request env "GET" "/users" None ;;
       if and_status_is response 200 then
         users_data <- Response_json response ;;
         py_get users_data "data" (VList [])
       else
         flash "Failed to load users from API" "error" ;;;
         ret (VList []))
      is_Exception
      (fun e =>
         logger_error ("Error loading users: " ++ exc_str e) ;;;
         flash "Error connecting to backend API" "error" ;;;
         ret (VList [])) ;;
  render_template "index.html"
    [("users", users); ("api_url", of_optstr (API_BASE_URL env))].

(** [int(request.form.get('age')) if request.form.get('age') else None] *)
Definition age_field (env : Env) (req : Request) : exception + pyval :=
  match form_get req "age" with
  | Some s =>
      if str_truthy s then
        match py_int env s with
        | inr n => inr (VInt n)
        | inl e => inl e
        end
      else inr VNone
  | None => inr VNone
  end.

(** The dict literal [user_data] that both form views build. *)
Definition form_user_data (env : Env) (req : Request) : M pyval :=
  age <- lift (age_field env req) ;;
  ret (VDict [("name", of_optstr (form_get req "name"));
              ("email", of_optstr (form_get req "email"));
              ("age", age)]).

(** The failure branch that both form views share but for the default text:
    [error_msg = default], then under [if response:] the [error] entry of
    the parsed body, with a bare [except: pass] around the two lines, then
    [flash(f'Error: {error_msg}', 'error')]. *)
Definition flash_error_of (env : Env) (response : option Response)
    (default : string) : M unit :=
  error_msg <-
    (if truthy response then
       try_except
         (error_data <- Response_json response ;;
          py_get error_data "error" (VStr default))
         is_BaseException
         (fun _ => ret (VStr default))
     else ret (VStr default)) ;;
  flash ("Error: " ++ fmt env error_msg) "error".

(** [GET|POST /add_user] *)
Definition add_user (env : Env) (req : Request) : M view_result :=
  returned <-
    (if String.eqb (method req) "POST" then
       user_data <- form_user_data env req ;;
       response <- make_api_request env "POST" "/users" (Some user_data) ;;
       if and_status_is response 201 then
         flash "User created successfully! 🎉" "success" ;;;
         r <- redirect (url_for "index") ;;
         ret (Some r)
       else
         flash_error_of env response "Failed to create user" ;;;
         ret None
     else ret None) ;;
  match returned with
  | Some r => ret r
  | None => render_template "add_user.html" []
  end.

(** The tail of [edit_user], under its comment [# Get user data for
    editing]: a GET request reaches it at once, a POST request after a
    failed update. *)
Definition get_user_for_editing (env : Env) (user_id : Z) : M view_result :=
  response <- make_api_request env "GET"
                ("/users/" ++ str_of_int user_id) None ;;
  if and_status_is response 200 then
    user_data <- Response_json response ;;
    user <- py_get user_data "data" VNone ;;
    render_template "edit_user.html" [("user", user)]
  else
    flash "User not found" "error" ;;;
    redirect (url_for "index").

(** [GET|POST /edit_user/<int:user_id>] *)
Definition edit_user (env : Env) (req : Request) (user_id : Z)
    : M view_result :=
  returned <-
    (if String.eqb (method req) "POST" then
       user_data <- form_user_data env req ;;
       response <- make_api_request env "PUT"
                     ("/users/" ++ str_of_int user_id) (Some user_data) ;;
       if and_status_is response 200 then
         flash "User updated successfully! ✅" "success" ;;;
         r <- redirect (url_for "index") ;;
         ret (Some r)
       else
         flash_error_of env response "Failed to update user" ;;;
         ret None
     else ret None) ;;
  match returned with
  | Some r => ret r
  | None => get_user_for_editing env user_id
  end.

(** [POST /delete_user/<int:user_id>] *)
Definition delete_user (env : Env) (user_id : Z) : M view_result :=
  response <- make_api_request env "DELETE"
                ("/users/" ++ str_of_int user_id) None ;;
  (if and_status_is response 200 then
     flash "User deleted successfully! 🗑️" "success"
   else
     flash "Failed to delete user" "error") ;;;
  redirect (url_for "index").

(** [GET /api/health] *)
Definition health_check (env : Env) : M view_result :=
  backend_status <-
    try_except
      (response <- make_api_request env "GET" "/" None ;;
       if and_status_is response 200 then ret "healthy"
       else ret "unhealthy")
      is_BaseException
      (fun _ => ret "unreachable") ;;
  jsonify (VDict [("frontend", VStr "healthy");
                  ("backend", VStr backend_status);
                  ("api_url", of_optstr (API_BASE_URL env))]).

(** The handlers registered for 404 and 500: [render_template(...), code]. *)
Definition not_found (error : exception) : M view_result :=
  ret (PageWithStatus "404.html" [] 404).

Definition internal_error (error : exception) : M view_result :=
  ret (PageWithStatus "500.html" [] 500).

(** * Vocabulary of the properties *)

(** The methods the adapter supports. *)
Definition supported (m : string) : Prop :=
  m = "GET" \/ m = "POST" \/ m = "PUT" \/ m = "DELETE".

(** The call that the adapter hands to [requests]: only POST and PUT carry
    the payload. *)
Definition adapter_call (env : Env) (m endpoint : string)
    (data : option pyval) : HttpCall :=
  mkCall m (fmt_optstr (API_BASE_URL env) ++ endpoint)
    (if String.eqb m "POST" || String.eqb m "PUT" then data else None) 10.

(** A network-level failure: [requests] reports it with an exception of
    the [RequestException] family. *)
Definition network_failure (n : net_result) : Prop :=
  match n with
  | Fails e => is_RequestException e = true
  | Answers _ => False
  end.

(** What the adapter's caller receives for a result of the network: the
    response, the absent response, or nothing when the exception passes
    through the adapter. *)
Definition delivered (n : net_result) : option (option Response) :=
  match n with
  | Answers r => Some (Some r)
  | Fails e => if is_RequestException e then Some None else None
  end.

(** "The response has status [code]", an absent response having none. *)
Definition status_is (response : option Response) (code : Z) : bool :=
  match response with
  | Some r => status_code r =? code
  | None => false
  end.

(** The state after call [c] failed with [e] and the adapter logged it. *)
Definition log_failure (st : State) (c : HttpCall) (e : exception) : State :=
  mkState (flashes st)
    (log st ++ [("ERROR", "API request failed: " ++ exc_str e)])
    (calls st ++ [c]).

(** The state after call [c] was handed to [requests]. *)
Definition sent (st : State) (c : HttpCall) : State :=
  mkState (flashes st) (log st) (calls st ++ [c]).

(** The state after notification [n] was queued. *)
Definition queued (st : State) (n : Notification) : State :=
  mkState (flashes st ++ [n]) (log st) (calls st).

(** Runs the monad's operations on the state at hand. *)
Ltac run_monad :=
  cbv [bind ret raise lift flash logger_error try_except render_template
       redirect jsonify Response_json py_get];
  cbn [flashes log calls json status_code fst snd].

(** The call of the list view and the page it renders for [users]. *)
Definition index_call (env : Env) : HttpCall :=
  adapter_call env "GET" "/users" None.

Definition index_page (env : Env) (users : pyval) : view_result :=
  Page "index.html"
    [("users", users); ("api_url", of_optstr (API_BASE_URL env))].

(** The call of the delete view. *)
Definition delete_call (env : Env) (user_id : Z) : HttpCall :=
  adapter_call env "DELETE" ("/users/" ++ str_of_int user_id) None.

(** The notification of the delete view for each class of outcome. *)
Definition delete_note (response : option Response) : Notification :=
  if status_is response 200
  then mkNote "success" "User deleted successfully! 🗑️"
  else mkNote "error" "Failed to delete user".

(** The call of the health view and its report for a backend status. *)
Definition health_call (env : Env) : HttpCall :=
  adapter_call env "GET" "/" None.

Definition health_report (env : Env) (backend_status : string) : view_result :=
  JsonResponse (VDict [("frontend", VStr "healthy");
                       ("backend", VStr backend_status);
                       ("api_url", of_optstr (API_BASE_URL env))]).

(** The payload built from a form whose age field evaluates to [age]. *)
Definition user_payload (req : Request) (age : pyval) : pyval :=
  VDict [("name", of_optstr (form_get req "name"));
         ("email", of_optstr (form_get req "email"));
         ("age", age)].

(** A value is numeric when [int] reads a number in it. *)
Definition numeric (env : Env) (s : string) : bool :=
  match PyLong_FromString (if is_ascii s then s else unicode_to_ascii env s) with
  | Some _ => true
  | None => false
  end.

(** The [error] entry of a response's body, formatted, or [default] when
    the body does not parse, is no object or has no such entry. *)
Definition body_error (env : Env) (r : Response) (default : string) : string :=
  match json r with
  | inr (VDict d) =>
      match assoc "error" d with
      | Some v => fmt env v
      | None => default
      end
  | _ => default
  end.

(** The text that follows [Error: ] in the notification of a failed
    submission. *)
Definition error_text (env : Env) (response : option Response)
    (default : string) : string :=
  match response with
  | Some r => if Response_bool r then body_error env r default else default
  | None => default
  end.

(** The calls of the form views: create, update, and the fetch that fills
    the edit form. *)
Definition create_call (env : Env) (payload : pyval) : HttpCall :=
  adapter_call env "POST" "/users" (Some payload).

Definition update_call (env : Env) (user_id : Z) (payload : pyval) : HttpCall :=
  adapter_call env "PUT" ("/users/" ++ str_of_int user_id) (Some payload).

Definition fetch_call (env : Env) (user_id : Z) : HttpCall :=
  adapter_call env "GET" ("/users/" ++ str_of_int user_id) None.

(** The first call that a view sent, read off the trace. *)
Definition first_call_sent (before after : State) : option HttpCall :=
  nth_error (calls after) (List.length (calls before)).

(** The alphabet of integer literals: white space, digits, the underscore
    and the two signs. *)
Definition literal_char (c : ascii) : bool :=
  Py_ISSPACE c
  || match digit_value c with Some _ => true | None => false end
  || Ascii.eqb c "_"%char || Ascii.eqb c "+"%char || Ascii.eqb c "-"%char.

(** The ASCII digits. *)
Definition is_digit (c : ascii) : bool :=
  match digit_value c with Some _ => true | None => false end.

Fixpoint all_chars (p : ascii -> bool) (s : string) : bool :=
  match s with
  | String c r => p c && all_chars p r
  | EmptyString => true
  end.

(** ** Sample worlds *)

(** An interpreter for which no character outside ASCII is a digit or a
    white space: [int] sees a question mark in its place. *)
Fixpoint question_marks (s : string) : string :=
  match s with
  | String c r =>
      String (if Z.of_nat (nat_of_ascii c) <? 128 then c else "?"%char)
        (question_marks r)
  | EmptyString => EmptyString
  end.

(** [repr] as far as the samples need it: exact on [None], booleans,
    integers and on text free of quotes, backslashes and control
    characters; containers are abbreviated. *)
Definition quoted (v : pyval) : string :=
  match v with
  | VNone => "None"
  | VBool true => "True"
  | VBool false => "False"
  | VInt z => str_of_int z
  | VFloat literal => literal
  | VStr s => "'" ++ s ++ "'"
  | VList _ => "[...]"
  | VDict _ => "{...}"
  end.

Definition world (net : HttpCall -> net_result) : Env :=
  mkEnv (Some "http://backend:5000") net question_marks 4300 quoted.

Definition fresh : State := mkState [] [] [].

(** Nothing listens on the backend's port. *)
Definition connection_refused : HttpCall -> net_result :=
  fun _ => Fails (mkExc ConnectionError "Connection refused").

Definition answers (status : Z) (body : pyval) : HttpCall -> net_result :=
  fun _ => Answers (mkResponse status (inr body)).

Definition email_taken : HttpCall -> net_result :=
  answers 400 (VDict [("error", VStr "email already exists")]).

Definition user_gone : HttpCall -> net_result :=
  answers 404 (VDict [("error", VStr "User not found")]).

Definition bare_list : HttpCall -> net_result :=
  answers 200 (VList []).

Definition no_data_key : HttpCall -> net_result :=
  answers 200 (VDict [("users", VList [])]).

Definition alice : pyval :=
  VDict [("id", VInt 1); ("name", VStr "Alice");
         ("email", VStr "alice@example.com"); ("age", VInt 30)].

Definition bob : pyval :=
  VDict [("id", VInt 2); ("name", VStr "Bob");
         ("email", VStr "bob@example.com"); ("age", VNone)].

Definition two_users : HttpCall -> net_result :=
  answers 200 (VDict [("data", VList [alice; bob])]).

(** Reads are served, writes time out. *)
Definition read_only : HttpCall -> net_result :=
  fun c =>
    if String.eqb (verb c) "GET"
    then Answers (mkResponse 200 (inr (VDict [("data", alice)])))
    else Fails (mkExc ReadTimeout "Read timed out. (read timeout=10)").

Definition submit (age : string) : Request :=
  mkRequest "POST"
    [("name", "Alice"); ("email", "alice@example.com"); ("age", age)].

Definition submit_without_age : Request :=
  mkRequest "POST" [("name", "Alice"); ("email", "alice@example.com")].

(** ** Start-up

    The block under [if __name__ == '__main__':] reads the port and the
    debug flag from the process environment and hands them to [app.run]. *)

(** [os.getenv(key)] on the process environment. *)
Definition getenv (environ : list (string * string)) (key : string)
    : option string :=
  assoc key environ.

(** [str.lower] on one ASCII character. *)
Definition ascii_lower (c : ascii) : ascii :=
  let n := nat_of_ascii c in
  if ((65 <=? n) && (n <=? 90))%nat then ascii_of_nat (n + 32) else c.

Fixpoint lower_ascii (s : string) : string :=
  match s with
  | String c r => String (ascii_lower c) (lower_ascii r)
  | EmptyString => EmptyString
  end.

(** [s.lower()]: on ASCII text the letters A to Z are mapped to a to z; the
    case mapping of other text is the interpreter's, [unicode_lower]. *)
Definition str_lower (unicode_lower : string -> string) (s : string) : string :=
  if is_ascii s then lower_ascii s else unicode_lower s.

(** The arguments of [app.run]. *)
Record RunArgs : Type := mkRunArgs {
  host : string;
  port : Z;
  debug : bool
}.

(** [port = int(os.getenv('PORT', 8000))], where the default is the integer
    8000 and a value from the environment is text;
    [debug = os.getenv('DEBUG', 'False').lower() == 'true'];
    [app.run(host='0.0.0.0', port=port, debug=debug)]. *)
Definition main (env : Env) (unicode_lower : string -> string)
    (environ : list (string * string)) : exception + RunArgs :=
  match
    match getenv environ "PORT" with
    | Some s => py_int env s
    | None => inr 8000
    end
  with
  | inl e => inl e
  | inr port =>
      let debug :=
        String.eqb
          (str_lower unicode_lower
             match getenv environ "DEBUG" with
             | Some s => s
             | None => "False"
             end)
          "true" in
      inr (mkRunArgs "0.0.0.0" port debug)
  end.

(** ** Vocabulary of the further properties *)

(** [l'] is [l] with something appended. *)
Definition grows {A : Type} (l l' : list A) : Prop :=
  exists added, l' = (l ++ added)%list.

(** Nothing that was pending, logged or recorded in [st] is lost in [st']. *)
Definition extends (st st' : State) : Prop :=
  grows (flashes st) (flashes st') /\
  grows (log st) (log st') /\
  grows (calls st) (calls st').

(** A computation that only ever adds to the state, on every path, the
    raising ones included. *)
Definition keeps_history {A : Type} (m : M A) : Prop :=
  forall st, extends st (snd (m st)).

(** One of the two letters, whatever the case. *)
Definition either_case (lower upper c : ascii) : Prop :=
  c = lower \/ c = upper.

(** The value under which [Horner] reads the digits of [d] after [acc]. *)
Fixpoint horner (acc : Z) (d : Decimal.uint) : Z :=
  match d with
  | Decimal.Nil => acc
  | Decimal.D0 d' => horner (acc * 10 + 0) d'
  | Decimal.D1 d' => horner (acc * 10 + 1) d'
  | Decimal.D2 d' => horner (acc * 10 + 2) d'
  | Decimal.D3 d' => horner (acc * 10 + 3) d'
  | Decimal.D4 d' => horner (acc * 10 + 4) d'
  | Decimal.D5 d' => horner (acc * 10 + 5) d'
  | Decimal.D6 d' => horner (acc * 10 + 6) d'
  | Decimal.D7 d' => horner (acc * 10 + 7) d'
  | Decimal.D8 d' => horner (acc * 10 + 8) d'
  | Decimal.D9 d' => horner (acc * 10 + 9) d'
  end.

(** The [AttributeError] of [v.get] on a value that is no dict. *)
Definition no_get (v : pyval) : exception :=
  mkExc AttributeError
    ("'" ++ type_name v ++ "' object has no attribute 'get'").

(** Where the list view lands after its [except Exception] clause caught
    [e] in state [st1]: an empty list, one log line, one notification. *)
Definition index_recovered (env : Env) (st1 : State) (e : exception)
    : outcome view_result * State :=
  (Return (index_page env (VList [])),
   mkState
     (flashes st1 ++ [mkNote "error" "Error connecting to backend API"])
     (log st1 ++ [("ERROR", "Error loading users: " ++ exc_str e)])
     (calls st1)).

(** The entry under [key] of a parsed object, or [default]. *)
Definition entry_or (d : list (string * pyval)) (key : string)
    (default : pyval) : pyval :=
  match assoc key d with
  | Some v => v
  | None => default
  end.

(** ** More sample worlds *)

(** The backend answers 200 with a body that is no JSON. *)
Definition garbled : HttpCall -> net_result :=
  fun _ =>
    Answers (mkResponse 200
               (inl (mkExc JSONDecodeError
                       "Expecting value: line 1 column 1 (char 0)"))).

(** The backend answers 201 to everything. *)
Definition created : HttpCall -> net_result :=
  answers 201 (VDict [("data", alice)]).

(** The backend is down for maintenance. *)
Definition maintenance : HttpCall -> net_result :=
  answers 503 (VDict [("error", VStr "down for maintenance")]).

(** The backend reports a failure under status 200. *)
Definition soft_failure : HttpCall -> net_result :=
  answers 200 (VDict [("error", VStr "quota exceeded")]).

(** The backend answers 200 with one record, not a list, under [data]. *)
Definition single_record : HttpCall -> net_result :=
  answers 200 (VDict [("data", alice)]).

(** The environment of a process started with an empty PORT and with
    DEBUG switched on in capitals. *)
Definition empty_port : list (string * string) := [("PORT", "")].

Definition loud_debug : list (string * string) :=
  [("PORT", "8080"); ("DEBUG", "TRUE")].

(** A request that submits nothing. *)
Definition browse : Request := mkRequest "GET" [].

(** An interpreter without case mappings outside ASCII. *)
Definition no_unicode_lower : string -> string := fun s => s.

(** * Properties *)

(** ** The adapter *)

Lemma make_api_request_run env m endpoint data st :
  supported m ->
  make_api_request env m endpoint data st =
    let c := adapter_call env m endpoint data in
    match network env c with
    | Answers r => (Return (Some r), sent st c)
    | Fails e =>
        if is_RequestException e then (Return None, log_failure st c e)
        else (Raise e, sent st c)
    end.
Proof.
  intros [-> | [-> | [-> | ->]]];
    cbv [make_api_request try_except bind ret requests_get requests_post
         requests_put requests_delete requests_call adapter_call sent
         log_failure logger_error];
    cbn [String.eqb Ascii.eqb Bool.eqb orb flashes log calls];
    destruct (network env _) as [r | e]; cbn [flashes log calls];
    try reflexivity;
    destruct (is_RequestException e); reflexivity.
Qed.

Lemma make_api_request_delivers env m endpoint data st response :
  supported m ->
  delivered (network env (adapter_call env m endpoint data)) = Some response ->
  exists st',
    make_api_request env m endpoint data st = (Return response, st') /\
    flashes st' = flashes st /\
    calls st' = (calls st ++ [adapter_call env m endpoint data])%list.
Proof.
  intros Hm Hd. rewrite make_api_request_run by assumption. cbv zeta.
  destruct (network env _) as [r | e]; cbn [delivered] in Hd.
  - injection Hd as <-. eexists; split; [reflexivity | split; reflexivity].
  - destruct (is_RequestException e); [| discriminate].
    injection Hd as <-. eexists; split; [reflexivity | split; reflexivity].
Qed.

(** X1: a method other than the four the adapter knows, in exactly this
    spelling, fails fast with a [ValueError]: no call is sent, nothing is
    logged or queued, and the adapter's own handler does not catch it. *)
Lemma make_api_request_unsupported env m endpoint data st :
  ~ supported m ->
  make_api_request env m endpoint data st =
    (Raise (mkExc ValueError ("Unsupported method: " ++ m)), st).
Proof.
  intros Hm. unfold supported in Hm.
  cbv [make_api_request try_except bind ret raise].
  destruct (String.eqb_spec m "GET"); [tauto |].
  destruct (String.eqb_spec m "POST"); [tauto |].
  destruct (String.eqb_spec m "PUT"); [tauto |].
  destruct (String.eqb_spec m "DELETE"); [tauto |].
  reflexivity.
Qed.

(** A status below 400 or from 600 on makes the response truthy, so for
    such a code the Python test [response and response.status_code == code]
    says what it seems to say. *)
Lemma and_status_is_spec response code :
  code < 400 \/ 600 <= code ->
  and_status_is response code = status_is response code.
Proof.
  intros Hc. destruct response as [r |]; [| reflexivity].
  cbv [and_status_is status_is Response_bool ok].
  destruct (Z.eqb_spec (status_code r) code) as [-> | _].
  - replace ((400 <=? code) && (code <? 600)) with false; [reflexivity |].
    symmetry. apply andb_false_iff. rewrite Z.leb_gt, Z.ltb_ge. lia.
  - apply andb_false_r.
Qed.

(** For a client or server error status the response is falsy. *)
Lemma truthy_error_status r :
  400 <= status_code r < 600 -> truthy (Some r) = false.
Proof.
  intros [H1 H2]. cbv [truthy Response_bool ok].
  apply Z.leb_le in H1. apply Z.ltb_lt in H2. rewrite H1, H2. reflexivity.
Qed.


(** ** The list view *)

(** C3: when the call to GET /users comes back absent or with a status
    other than 200, the list page is rendered with zero records and exactly
    one notification, an error, is queued. *)
Theorem index_failure_renders_no_record env st response :
  delivered (network env (index_call env)) = Some response ->
  status_is response 200 = false ->
  exists st',
    index env st = (Return (index_page env (VList [])), st') /\
    flashes st' =
      (flashes st ++ [mkNote "error" "Failed to load users from API"])%list.
Proof.
  intros Hd Hs.
  destruct (make_api_request_delivers env "GET" "/users" None st response)
    as (st1 & Hrun & Hfl & _); [left; reflexivity | exact Hd |].
  cbv [index]. unfold bind at 1. unfold try_except. unfold bind at 1.
  rewrite Hrun.
  rewrite and_status_is_spec by lia. rewrite Hs.
  run_monad. eexists. split; [reflexivity |].
  cbn [flashes]. rewrite Hfl. reflexivity.
Qed.

(** C8: a 200 answer to GET /users whose body is an object with a [data]
    array makes the list page show exactly that array, in the order
    received, and queues nothing. *)
Theorem index_success_renders_data env st r d records :
  network env (index_call env) = Answers r ->
  status_code r = 200 ->
  json r = inr (VDict d) ->
  assoc "data" d = Some (VList records) ->
  exists st',
    index env st = (Return (index_page env (VList records)), st') /\
    flashes st' = flashes st.
Proof.
  intros Hn Hs Hj Hdata.
  cbv [index]. unfold bind at 1. unfold try_except. unfold bind at 1.
  rewrite make_api_request_run by (left; reflexivity). cbv zeta.
  fold (index_call env). rewrite Hn.
  rewrite and_status_is_spec by lia. cbn [status_is]. rewrite Hs.
  run_monad. rewrite Hj, Hdata.
  eexists. split; reflexivity.
Qed.

(** C9, as the code has it: a 200 answer whose body is a JSON object
    without a [data] key makes the list page show zero records and queues
    nothing. *)
Theorem index_missing_data_key env st r d :
  network env (index_call env) = Answers r ->
  status_code r = 200 ->
  json r = inr (VDict d) ->
  assoc "data" d = None ->
  exists st',
    index env st = (Return (index_page env (VList [])), st') /\
    flashes st' = flashes st.
Proof.
  intros Hn Hs Hj Hdata.
  cbv [index]. unfold bind at 1. unfold try_except. unfold bind at 1.
  rewrite make_api_request_run by (left; reflexivity). cbv zeta.
  fold (index_call env). rewrite Hn.
  rewrite and_status_is_spec by lia. cbn [status_is]. rewrite Hs.
  run_monad. rewrite Hj, Hdata.
  eexists. split; reflexivity.
Qed.

(** A 200 answer whose body is valid JSON of another kind than an object
    has no [data] key either, but [.get] fails on it and the view's
    [except Exception] turns that into an error notification. *)
Lemma index_body_not_an_object env st r v :
  network env (index_call env) = Answers r ->
  status_code r = 200 ->
  json r = inr v ->
  (forall d, v <> VDict d) ->
  exists st',
    index env st = (Return (index_page env (VList [])), st') /\
    flashes st' =
      (flashes st ++ [mkNote "error" "Error connecting to backend API"])%list.
Proof.
  intros Hn Hs Hj Hv.
  cbv [index]. unfold bind at 1. unfold try_except. unfold bind at 1.
  rewrite make_api_request_run by (left; reflexivity). cbv zeta.
  fold (index_call env). rewrite Hn.
  rewrite and_status_is_spec by lia. cbn [status_is]. rewrite Hs.
  run_monad. rewrite Hj.
  destruct v; try (eexists; split; reflexivity).
  exfalso. eapply Hv. reflexivity.
Qed.

(** ** The delete view *)

(** C7: whatever the adapter brings back from DELETE /users/{id} (a 200, an
    other status, the absent response), the view redirects to the list
    route and queues a single notification, of category success for a 200
    and error otherwise. *)
Theorem delete_user_always_redirects env user_id st response :
  delivered (network env (delete_call env user_id)) = Some response ->
  exists st',
    delete_user env user_id st = (Return (RedirectTo (url_for "index")), st') /\
    flashes st' = (flashes st ++ [delete_note response])%list /\
    category (delete_note response) =
      (if status_is response 200 then "success" else "error").
Proof.
  intros Hd.
  destruct (make_api_request_delivers env "DELETE"
              ("/users/" ++ str_of_int user_id) None st response)
    as (st1 & Hrun & Hfl & _); [do 3 right; reflexivity | exact Hd |].
  cbv [delete_user]. unfold bind at 1. rewrite Hrun.
  rewrite and_status_is_spec by lia. unfold delete_note.
  destruct (status_is response 200); run_monad;
    (eexists; split; [reflexivity |]); cbn [flashes category];
    rewrite Hfl; split; reflexivity.
Qed.

(** ** The health view *)

(** The three values of the health view, case by case on what the network
    does with GET /. *)
Lemma health_check_run env st :
  health_check env st =
    match network env (health_call env) with
    | Answers r =>
        (Return (health_report env
                   (if status_code r =? 200 then "healthy" else "unhealthy")),
         sent st (health_call env))
    | Fails e =>
        if is_RequestException e
        then (Return (health_report env "unhealthy"),
              log_failure st (health_call env) e)
        else (Return (health_report env "unreachable"),
              sent st (health_call env))
    end.
Proof.
  cbv [health_check]. unfold bind at 1. unfold try_except. unfold bind at 1.
  rewrite make_api_request_run by (left; reflexivity). cbv zeta.
  fold (health_call env).
  destruct (network env (health_call env)) as [r | e].
  - rewrite and_status_is_spec by lia. cbn [status_is].
    destruct (status_code r =? 200); reflexivity.
  - destruct (is_RequestException e); reflexivity.
Qed.

(** C1, what the code does on the input of the claim: a backend call that
    fails at the network level (connection refused, timeout, DNS failure)
    is absorbed by the adapter, and the health view reports the backend as
    [unhealthy], not [unreachable]. *)
Theorem health_check_network_failure_unhealthy env st :
  network_failure (network env (health_call env)) ->
  exists st',
    health_check env st = (Return (health_report env "unhealthy"), st').
Proof.
  intros Hf. rewrite health_check_run.
  destruct (network env (health_call env)) as [r | e];
    cbn [network_failure] in Hf; [contradiction |].
  rewrite Hf. eexists. reflexivity.
Qed.

(** X22: [healthy] is reported exactly for an answer with status 200. *)
Lemma health_check_healthy_iff env st :
  fst (health_check env st) = Return (health_report env "healthy") <->
  exists r, network env (health_call env) = Answers r /\ status_code r = 200.
Proof.
  rewrite health_check_run.
  destruct (network env (health_call env)) as [r | e].
  - destruct (Z.eqb_spec (status_code r) 200) as [E | E]; cbn [fst]; split.
    + intros _. exists r. split; [reflexivity | exact E].
    + reflexivity.
    + intros H. discriminate H.
    + intros (r' & Hr & Hs). injection Hr as <-. contradiction.
  - destruct (is_RequestException e); cbn [fst]; split;
      try (intros H; discriminate H);
      intros (r' & Hr & _); discriminate Hr.
Qed.

(** X23: [unreachable] is reported exactly when the call raises an
    exception outside the family that the adapter catches. *)
Lemma health_check_unreachable_iff env st :
  fst (health_check env st) = Return (health_report env "unreachable") <->
  exists e, network env (health_call env) = Fails e /\
            is_RequestException e = false.
Proof.
  rewrite health_check_run.
  destruct (network env (health_call env)) as [r | e].
  - split.
    + destruct (status_code r =? 200); cbn [fst]; intros H; discriminate H.
    + intros (e & He & _). discriminate He.
  - destruct (is_RequestException e) eqn:E; cbn [fst]; split.
    + intros H. discriminate H.
    + intros (e' & He & He'). injection He as <-. congruence.
    + intros _. exists e. split; [reflexivity | exact E].
    + reflexivity.
Qed.

(** ** The form views *)

Lemma str_truthy_false s : str_truthy s = false <-> s = "".
Proof.
  unfold str_truthy. destruct (String.eqb_spec s ""); cbn; split;
    congruence.
Qed.

Lemma age_field_blank env req :
  form_get req "age" = None \/ form_get req "age" = Some "" ->
  age_field env req = inr VNone.
Proof.
  unfold age_field. intros [-> | ->]; reflexivity.
Qed.

Lemma age_field_not_numeric env req s :
  form_get req "age" = Some s ->
  s <> "" ->
  numeric env s = false ->
  age_field env req =
    inl (mkExc ValueError
           ("invalid literal for int() with base 10: " ++ repr env (VStr s))).
Proof.
  intros Hget Hs Hn. unfold age_field. rewrite Hget.
  destruct (str_truthy s) eqn:E; [| apply str_truthy_false in E; contradiction].
  unfold py_int. unfold numeric in Hn.
  destruct (PyLong_FromString _); [discriminate | reflexivity].
Qed.

Lemma form_user_data_run env req st :
  form_user_data env req st =
    match age_field env req with
    | inr age => (Return (user_payload req age), st)
    | inl e => (Raise e, st)
    end.
Proof.
  cbv [form_user_data bind lift].
  destruct (age_field env req); reflexivity.
Qed.

Lemma flash_error_of_run env response default st :
  flash_error_of env response default st =
    (Return tt,
     queued st (mkNote "error" ("Error: " ++ error_text env response default))).
Proof.
  cbv [flash_error_of error_text body_error]. unfold bind at 1.
  destruct response as [r |]; cbn [truthy]; [| reflexivity].
  destruct (Response_bool r); [| reflexivity].
  run_monad. destruct (json r) as [e | v]; [reflexivity |].
  destruct v; try reflexivity.
  destruct (assoc "error" d); reflexivity.
Qed.

(** A submission to the create route whose payload could be built and
    whose call came back from the adapter. *)
Lemma add_user_post env req st age response :
  method req = "POST" ->
  age_field env req = inr age ->
  delivered (network env (create_call env (user_payload req age)))
    = Some response ->
  exists st1,
    flashes st1 = flashes st /\
    calls st1 = (calls st ++ [create_call env (user_payload req age)])%list /\
    add_user env req st =
      if status_is response 201
      then (Return (RedirectTo (url_for "index")),
            queued st1 (mkNote "success" "User created successfully! 🎉"))
      else (Return (Page "add_user.html" []),
            queued st1
              (mkNote "error"
                 ("Error: " ++ error_text env response "Failed to create user"))).
Proof.
  intros Hm Ha Hd.
  destruct (make_api_request_delivers env "POST" "/users"
              (Some (user_payload req age)) st response)
    as (st1 & Hrun & Hfl & Hcalls); [right; left; reflexivity | exact Hd |].
  exists st1. split; [exact Hfl | split; [exact Hcalls |]].
  cbv [add_user]. rewrite Hm. cbn [String.eqb Ascii.eqb Bool.eqb].
  unfold bind at 1. unfold bind at 1.
  rewrite form_user_data_run, Ha. unfold bind at 1. rewrite Hrun.
  rewrite and_status_is_spec by lia.
  destruct (status_is response 201).
  - reflexivity.
  - unfold bind at 1. rewrite flash_error_of_run. reflexivity.
Qed.

(** The tail of the edit view when its call comes back from the adapter. *)
Lemma get_user_for_editing_run env user_id st response :
  delivered (network env (fetch_call env user_id)) = Some response ->
  exists st1,
    flashes st1 = flashes st /\
    calls st1 = (calls st ++ [fetch_call env user_id])%list /\
    get_user_for_editing env user_id st =
      if status_is response 200
      then (user_data <- Response_json response ;;
            user <- py_get user_data "data" VNone ;;
            render_template "edit_user.html" [("user", user)]) st1
      else (Return (RedirectTo (url_for "index")),
            queued st1 (mkNote "error" "User not found")).
Proof.
  intros Hd.
  destruct (make_api_request_delivers env "GET"
              ("/users/" ++ str_of_int user_id) None st response)
    as (st1 & Hrun & Hfl & Hcalls); [left; reflexivity | exact Hd |].
  exists st1. split; [exact Hfl | split; [exact Hcalls |]].
  cbv [get_user_for_editing]. unfold bind at 1. rewrite Hrun.
  rewrite and_status_is_spec by lia.
  destruct (status_is response 200); reflexivity.
Qed.

(** A submission to the edit route whose payload could be built and whose
    call came back from the adapter. *)
Lemma edit_user_post env req user_id st age response :
  method req = "POST" ->
  age_field env req = inr age ->
  delivered (network env (update_call env user_id (user_payload req age)))
    = Some response ->
  exists st1,
    flashes st1 = flashes st /\
    calls st1 =
      (calls st ++ [update_call env user_id (user_payload req age)])%list /\
    edit_user env req user_id st =
      if status_is response 200
      then (Return (RedirectTo (url_for "index")),
            queued st1 (mkNote "success" "User updated successfully! ✅"))
      else get_user_for_editing env user_id
             (queued st1
                (mkNote "error"
                   ("Error: "
                    ++ error_text env response "Failed to update user"))).
Proof.
  intros Hm Ha Hd.
  destruct (make_api_request_delivers env "PUT"
              ("/users/" ++ str_of_int user_id)
              (Some (user_payload req age)) st response)
    as (st1 & Hrun & Hfl & Hcalls);
    [right; right; left; reflexivity | exact Hd |].
  exists st1. split; [exact Hfl | split; [exact Hcalls |]].
  cbv [edit_user]. rewrite Hm. cbn [String.eqb Ascii.eqb Bool.eqb].
  unfold bind at 1. unfold bind at 1.
  rewrite form_user_data_run, Ha. unfold bind at 1. rewrite Hrun.
  rewrite and_status_is_spec by lia.
  destruct (status_is response 200).
  - reflexivity.
  - unfold bind at 1. rewrite flash_error_of_run. reflexivity.
Qed.

(** A submission whose age field [int] rejects: the view raises before any
    call is sent or any notification queued. *)
Lemma form_views_raise env req user_id st e :
  method req = "POST" ->
  age_field env req = inl e ->
  add_user env req st = (Raise e, st) /\
  edit_user env req user_id st = (Raise e, st).
Proof.
  intros Hm Ha. split.
  - cbv [add_user]. rewrite Hm. cbn [String.eqb Ascii.eqb Bool.eqb].
    unfold bind at 1. unfold bind at 1.
    rewrite form_user_data_run, Ha. reflexivity.
  - cbv [edit_user]. rewrite Hm. cbn [String.eqb Ascii.eqb Bool.eqb].
    unfold bind at 1. unfold bind at 1.
    rewrite form_user_data_run, Ha. reflexivity.
Qed.

Lemma nth_error_first_new {A} (l : list A) (x : A) (rest : list A) :
  nth_error (l ++ x :: rest) (List.length l) = Some x.
Proof.
  induction l as [| y l IH]; [reflexivity | exact IH].
Qed.

(** Whatever the network does, the adapter has handed it one call. *)
Lemma make_api_request_calls env m endpoint data st :
  supported m ->
  calls (snd (make_api_request env m endpoint data st)) =
    (calls st ++ [adapter_call env m endpoint data])%list.
Proof.
  intros Hm. rewrite make_api_request_run by assumption. cbv zeta.
  destruct (network env _) as [r | e]; [reflexivity |].
  destruct (is_RequestException e); reflexivity.
Qed.

Lemma add_user_first_call env req st age :
  method req = "POST" ->
  age_field env req = inr age ->
  first_call_sent st (snd (add_user env req st)) =
    Some (create_call env (user_payload req age)).
Proof.
  intros Hm Ha. unfold first_call_sent.
  cbv [add_user]. rewrite Hm. cbn [String.eqb Ascii.eqb Bool.eqb].
  unfold bind at 1. unfold bind at 1.
  rewrite form_user_data_run, Ha. unfold bind at 1.
  rewrite make_api_request_run by (right; left; reflexivity). cbv zeta.
  fold (create_call env (user_payload req age)).
  destruct (network env _) as [r | e].
  - destruct (and_status_is (Some r) 201).
    + apply (nth_error_first_new (calls st) _ []).
    + unfold bind at 1. rewrite flash_error_of_run.
      apply (nth_error_first_new (calls st) _ []).
  - destruct (is_RequestException e).
    + cbn [and_status_is]. unfold bind at 1. rewrite flash_error_of_run.
      apply (nth_error_first_new (calls st) _ []).
    + apply (nth_error_first_new (calls st) _ []).
Qed.

(** The tail of the edit view keeps the trace it finds and adds to it. *)
Lemma get_user_for_editing_calls env user_id st :
  exists rest,
    calls (snd (get_user_for_editing env user_id st)) = (calls st ++ rest)%list.
Proof.
  cbv [get_user_for_editing]. unfold bind at 1.
  rewrite make_api_request_run by (left; reflexivity). cbv zeta.
  exists [fetch_call env user_id]. fold (fetch_call env user_id).
  destruct (network env _) as [r | e].
  - destruct (and_status_is (Some r) 200); [| reflexivity].
    run_monad. destruct (json r) as [e | v]; [reflexivity |].
    destruct v; try reflexivity.
    destruct (assoc "data" d); reflexivity.
  - destruct (is_RequestException e); reflexivity.
Qed.

Lemma edit_user_first_call env req user_id st age :
  method req = "POST" ->
  age_field env req = inr age ->
  first_call_sent st (snd (edit_user env req user_id st)) =
    Some (update_call env user_id (user_payload req age)).
Proof.
  intros Hm Ha. unfold first_call_sent.
  cbv [edit_user]. rewrite Hm. cbn [String.eqb Ascii.eqb Bool.eqb].
  unfold bind at 1. unfold bind at 1.
  rewrite form_user_data_run, Ha. unfold bind at 1.
  rewrite make_api_request_run by (right; right; left; reflexivity).
  cbv zeta. fold (update_call env user_id (user_payload req age)).
  set (c := update_call env user_id (user_payload req age)).
  assert (Htail : forall st1,
             calls st1 = (calls st ++ [c])%list ->
             nth_error (calls (snd (get_user_for_editing env user_id st1)))
               (List.length (calls st)) = Some c).
  { intros st1 H1.
    destruct (get_user_for_editing_calls env user_id st1) as (rest & ->).
    rewrite H1, <- app_assoc. apply nth_error_first_new. }
  destruct (network env c) as [r | e].
  - destruct (and_status_is (Some r) 200).
    + apply (nth_error_first_new (calls st) _ []).
    + unfold bind at 1. rewrite flash_error_of_run.
      apply Htail. reflexivity.
  - destruct (is_RequestException e).
    + cbn [and_status_is]. unfold bind at 1. rewrite flash_error_of_run.
      apply Htail. reflexivity.
    + apply (nth_error_first_new (calls st) _ []).
Qed.

(** C5: on a submission to the create or the edit route, a missing or empty
    age field puts a null age in the JSON payload of the call that is sent,
    and a non-empty age field that is not numeric raises a [ValueError]
    that no handler of the view catches: the view ends with it, before any
    call or notification. *)
Theorem age_field_policy env req user_id st :
  method req = "POST" ->
  ((form_get req "age" = None \/ form_get req "age" = Some "") ->
   first_call_sent st (snd (add_user env req st)) =
     Some (mkCall "POST" (fmt_optstr (API_BASE_URL env) ++ "/users")
             (Some (VDict [("name", of_optstr (form_get req "name"));
                           ("email", of_optstr (form_get req "email"));
                           ("age", VNone)])) 10) /\
   first_call_sent st (snd (edit_user env req user_id st)) =
     Some (mkCall "PUT"
             (fmt_optstr (API_BASE_URL env) ++ "/users/" ++ str_of_int user_id)
             (Some (VDict [("name", of_optstr (form_get req "name"));
                           ("email", of_optstr (form_get req "email"));
                           ("age", VNone)])) 10)) /\
  (forall s,
     form_get req "age" = Some s -> s <> "" -> numeric env s = false ->
     exists e,
       exc_class_of e = ValueError /\
       add_user env req st = (Raise e, st) /\
       edit_user env req user_id st = (Raise e, st)).
Proof.
  intros Hm. split.
  - intros Hblank. apply (age_field_blank env) in Hblank. split.
    + exact (add_user_first_call env req st VNone Hm Hblank).
    + exact (edit_user_first_call env req user_id st VNone Hm Hblank).
  - intros s Hget Hs Hn.
    pose proof (age_field_not_numeric env req s Hget Hs Hn) as Ha.
    eexists. split; [| exact (form_views_raise env req user_id st _ Hm Ha)].
    reflexivity.
Qed.

(** C10: a create submission that fails (absent response or a status other
    than 201) renders the creation form again with an empty context: none of
    the submitted fields is handed back to the template. *)
Theorem add_user_failure_discards_input env req st age response :
  method req = "POST" ->
  age_field env req = inr age ->
  delivered (network env (create_call env (user_payload req age)))
    = Some response ->
  status_is response 201 = false ->
  fst (add_user env req st) = Return (Page "add_user.html" []).
Proof.
  intros Hm Ha Hd Hs.
  destruct (add_user_post env req st age response Hm Ha Hd)
    as (st1 & _ & _ & ->).
  rewrite Hs. reflexivity.
Qed.

(** C4, what the code does on the input of the claim: the backend answers
    the create call with status 400 and the body
    [{"error": "email already exists"}]; the form is rendered again and one
    error notification is queued, but its text is the generic one: a 400
    response is falsy, so [if response:] skips the lines that read the
    body. *)
Theorem add_user_duplicate_email_generic_text env req st age r :
  method req = "POST" ->
  age_field env req = inr age ->
  network env (create_call env (user_payload req age)) = Answers r ->
  status_code r = 400 ->
  json r = inr (VDict [("error", VStr "email already exists")]) ->
  fst (add_user env req st) = Return (Page "add_user.html" []) /\
  flashes (snd (add_user env req st)) =
    (flashes st ++ [mkNote "error" "Error: Failed to create user"])%list.
Proof.
  intros Hm Ha Hn Hs Hj.
  destruct (add_user_post env req st age (Some r) Hm Ha)
    as (st1 & Hfl & _ & ->); [rewrite Hn; reflexivity |].
  cbn [status_is]. rewrite Hs. cbn [Z.eqb Pos.eqb fst snd].
  split; [reflexivity |].
  unfold error_text, Response_bool, ok. rewrite Hs.
  cbn [flashes queued]. rewrite Hfl. reflexivity.
Qed.

(** C2, as the code has it: after a failed update (absent response or a
    status other than 200) the view queues one error notification for the
    failure, then fetches the user again.  When the second call brings a 200
    nothing more is queued, and what the view returns goes by the body: an
    object renders the edit form with the record under [data], or with
    [None] when the key is missing; a body that does not parse, or that
    parses to something other than an object, makes the view raise that
    error, for there is no handler around the fetch.  When the second call
    comes back absent or with another status a second error notification,
    [User not found], is queued and the view redirects to the list.  The
    text of the first notification is the generic one for an absent
    response and the body's [error] entry, when there is one, for a truthy
    response. *)
Theorem edit_user_failed_update env req user_id st age response refetched :
  method req = "POST" ->
  age_field env req = inr age ->
  delivered (network env (update_call env user_id (user_payload req age)))
    = Some response ->
  status_is response 200 = false ->
  delivered (network env (fetch_call env user_id)) = Some refetched ->
  exists text,
    (response = None -> text = "Failed to update user") /\
    (forall r, response = Some r -> Response_bool r = true ->
               text = body_error env r "Failed to update user") /\
    let failure := mkNote "error" ("Error: " ++ text) in
    let out := edit_user env req user_id st in
    if status_is refetched 200 then
      flashes (snd out) = (flashes st ++ [failure])%list /\
      (forall r d,
         refetched = Some r -> json r = inr (VDict d) ->
         fst out =
           Return (Page "edit_user.html"
                     [("user", match assoc "data" d with
                               | Some user => user
                               | None => VNone
                               end)])) /\
      (forall r e,
         refetched = Some r -> json r = inl e -> fst out = Raise e) /\
      (forall r v,
         refetched = Some r -> json r = inr v -> (forall d, v <> VDict d) ->
         fst out = Raise (no_get v))
    else
      fst out = Return (RedirectTo (url_for "index")) /\
      flashes (snd out) =
        (flashes st ++ [failure; mkNote "error" "User not found"])%list.
Proof.
  intros Hm Ha Hd Hs Hd2.
  exists (error_text env response "Failed to update user").
  split; [intros ->; reflexivity |].
  split; [intros r -> Hr; cbn [error_text]; rewrite Hr; reflexivity |].
  cbv zeta.
  destruct (edit_user_post env req user_id st age response Hm Ha Hd)
    as (st1 & Hfl1 & _ & ->).
  rewrite Hs.
  set (failure := mkNote "error" _).
  destruct (get_user_for_editing_run env user_id (queued st1 failure)
              refetched Hd2) as (st2 & Hfl2 & _ & ->).
  cbn [queued flashes] in Hfl2. rewrite Hfl1 in Hfl2.
  destruct (status_is refetched 200) eqn:Hs2.
  - destruct refetched as [r2 |]; [| discriminate Hs2].
    run_monad. split.
    + destruct (json r2) as [e | v]; [exact Hfl2 |].
      destruct v; try exact Hfl2.
      destruct (assoc "data" d); exact Hfl2.
    + split; [| split].
      * intros r d Hr Hj. injection Hr as <-. rewrite Hj.
        destruct (assoc "data" d); reflexivity.
      * intros r e Hr Hj. injection Hr as <-. rewrite Hj. reflexivity.
      * intros r v Hr Hj Hv. injection Hr as <-. rewrite Hj.
        destruct v; try reflexivity.
        exfalso. apply (Hv d). reflexivity.
  - cbn [fst snd queued flashes]. rewrite Hfl2, <- app_assoc.
    split; reflexivity.
Qed.

(** ** What [int] takes for a number

    A character that is no digit, sign, underscore or white space makes an
    ASCII string non-numeric. *)

Lemma skip_space_literal s :
  all_chars literal_char (skip_space s) = true ->
  all_chars literal_char s = true.
Proof.
  induction s as [| c r IH]; [reflexivity |].
  cbn [skip_space]. destruct (Py_ISSPACE c) eqn:E.
  - intros H. cbn [all_chars]. rewrite (IH H).
    unfold literal_char. rewrite E. reflexivity.
  - intros H. exact H.
Qed.

Lemma scan_digits_literal s :
  forall prev_us acc digits v digits' rest,
    scan_digits prev_us acc digits s = Some (v, digits', rest) ->
    all_chars literal_char rest = true ->
    all_chars literal_char s = true.
Proof.
  induction s as [| c r IH]; intros prev_us acc digits v digits' rest.
  - cbn [scan_digits]. destruct prev_us; [discriminate |].
    intros [= <- <- <-] H. exact H.
  - cbn [scan_digits]. destruct (Ascii.eqb c "_") eqn:Eus.
    + destruct prev_us; [discriminate |].
      intros Hscan Hrest. cbn [all_chars].
      rewrite (IH _ _ _ _ _ _ Hscan Hrest).
      unfold literal_char. rewrite Eus.
      rewrite !orb_true_r. reflexivity.
    + destruct (digit_value c) as [d |] eqn:Ed.
      * intros Hscan Hrest. cbn [all_chars].
        rewrite (IH _ _ _ _ _ _ Hscan Hrest).
        unfold literal_char. rewrite Ed.
        rewrite orb_true_r. reflexivity.
      * destruct prev_us; [discriminate |].
        intros [= <- <- <-] H. exact H.
Qed.

Lemma take_sign_literal s :
  all_chars literal_char (snd (take_sign s)) = true ->
  all_chars literal_char s = true.
Proof.
  destruct s as [| c r]; [reflexivity |].
  cbn [take_sign].
  destruct (Ascii.eqb c "+") eqn:Eplus;
    [| destruct (Ascii.eqb c "-") eqn:Eminus].
  - cbn [snd all_chars]. intros ->. unfold literal_char. rewrite Eplus.
    rewrite !orb_true_r. reflexivity.
  - cbn [snd all_chars]. intros ->. unfold literal_char. rewrite Eminus.
    rewrite !orb_true_r. reflexivity.
  - intros H. exact H.
Qed.

Lemma PyLong_FromString_literal s r :
  PyLong_FromString s = Some r -> all_chars literal_char s = true.
Proof.
  unfold PyLong_FromString. intros H.
  apply skip_space_literal, take_sign_literal.
  destruct (take_sign (skip_space s)) as [sign s2]. cbn [snd].
  unfold long_from_string_base in H.
  destruct (String.prefix "_" s2); [discriminate |].
  destruct (scan_digits false 0 0 s2) as [[[v digits] rest] |] eqn:E;
    [| discriminate].
  apply (scan_digits_literal _ _ _ _ _ _ _ E).
  apply skip_space_literal.
  destruct (Nat.eqb digits 0); [discriminate |].
  destruct (skip_space rest); [reflexivity | discriminate].
Qed.

(** An ASCII value with a character outside the alphabet of integer
    literals is not numeric. *)
Lemma foreign_character_not_numeric env s :
  is_ascii s = true ->
  all_chars literal_char s = false ->
  numeric env s = false.
Proof.
  intros Hascii Hchars. unfold numeric. rewrite Hascii.
  destruct (PyLong_FromString s) as [r |] eqn:E; [| reflexivity].
  apply PyLong_FromString_literal in E. congruence.
Qed.

(** ** The claims at the samples *)

Example numeric_samples :
  map (numeric (world connection_refused))
      ["30"; " 30 "; "+7"; "-3"; "1_000"; "007"]
    = [true; true; true; true; true; true] /\
  map (numeric (world connection_refused))
      [" "; "thirty"; "3O"; "1.5"; "1__0"; "_1"; "1_"; "+ 5"; "--1"; "1 2"]
    = [false; false; false; false; false; false; false; false; false; false].
Proof. split; reflexivity. Qed.


Lemma index_failure_renders_no_record_witness :
  exists st',
    index (world user_gone) fresh
      = (Return (index_page (world user_gone) (VList [])), st') /\
    flashes st' = [mkNote "error" "Failed to load users from API"].
Proof.
  apply (index_failure_renders_no_record (world user_gone) fresh
           (Some (mkResponse 404
                    (inr (VDict [("error", VStr "User not found")]))))).
  - reflexivity.
  - reflexivity.
Defined.

Lemma index_success_renders_data_witness :
  exists st',
    index (world two_users) fresh
      = (Return (index_page (world two_users) (VList [alice; bob])), st') /\
    flashes st' = [].
Proof.
  apply (index_success_renders_data (world two_users) fresh
           (mkResponse 200 (inr (VDict [("data", VList [alice; bob])])))
           [("data", VList [alice; bob])] [alice; bob]);
    reflexivity.
Defined.

Lemma index_missing_data_key_witness :
  exists st',
    index (world no_data_key) fresh
      = (Return (index_page (world no_data_key) (VList [])), st') /\
    flashes st' = [].
Proof.
  apply (index_missing_data_key (world no_data_key) fresh
           (mkResponse 200 (inr (VDict [("users", VList [])])))
           [("users", VList [])]);
    reflexivity.
Defined.

(** C9, as stated, fails on a 200 answer whose body is the JSON array [[]]:
    valid JSON without a [data] key, for which the list view queues an
    error notification. *)
Lemma index_bare_list_queues_error :
  network (world bare_list) (index_call (world bare_list))
    = Answers (mkResponse 200 (inr (VList []))) /\
  index (world bare_list) fresh
    = (Return (index_page (world bare_list) (VList [])),
       mkState [mkNote "error" "Error connecting to backend API"]
         [("ERROR", "Error loading users: 'list' object has no attribute 'get'")]
         [index_call (world bare_list)]) /\
  flashes (snd (index (world bare_list) fresh)) <> flashes fresh.
Proof.
  split; [reflexivity | split; [reflexivity | discriminate]].
Qed.

Lemma delete_user_always_redirects_witness :
  (exists st',
     delete_user (world connection_refused) 7 fresh
       = (Return (RedirectTo "/"), st') /\
     flashes st' = [mkNote "error" "Failed to delete user"] /\
     category (delete_note None) = "error") /\
  (exists st',
     delete_user (world two_users) 7 fresh = (Return (RedirectTo "/"), st') /\
     flashes st' = [mkNote "success" "User deleted successfully! 🗑️"] /\
     category
       (delete_note
          (Some (mkResponse 200 (inr (VDict [("data", VList [alice; bob])])))))
       = "success").
Proof.
  split.
  - apply (delete_user_always_redirects (world connection_refused) 7 fresh
             None).
    reflexivity.
  - apply (delete_user_always_redirects (world two_users) 7 fresh
             (Some (mkResponse 200
                      (inr (VDict [("data", VList [alice; bob])]))))).
    reflexivity.
Defined.

Lemma health_check_network_failure_unhealthy_witness :
  exists st',
    health_check (world connection_refused) fresh
      = (Return (JsonResponse
                   (VDict [("frontend", VStr "healthy");
                           ("backend", VStr "unhealthy");
                           ("api_url", VStr "http://backend:5000")])),
         st').
Proof.
  apply (health_check_network_failure_unhealthy
           (world connection_refused) fresh).
  reflexivity.
Defined.

Lemma age_field_policy_witness :
  first_call_sent fresh (snd (add_user (world email_taken) (submit "") fresh))
    = Some (mkCall "POST" "http://backend:5000/users"
              (Some (VDict [("name", VStr "Alice");
                            ("email", VStr "alice@example.com");
                            ("age", VNone)])) 10) /\
  first_call_sent fresh
    (snd (edit_user (world email_taken) submit_without_age 7 fresh))
    = Some (mkCall "PUT" "http://backend:5000/users/7"
              (Some (VDict [("name", VStr "Alice");
                            ("email", VStr "alice@example.com");
                            ("age", VNone)])) 10) /\
  exists e,
    exc_class_of e = ValueError /\
    add_user (world email_taken) (submit "thirty") fresh = (Raise e, fresh) /\
    edit_user (world email_taken) (submit "thirty") 7 fresh = (Raise e, fresh).
Proof.
  split; [| split].
  - apply (age_field_policy (world email_taken) (submit "") 7 fresh);
      [reflexivity | right; reflexivity].
  - apply (age_field_policy (world email_taken) submit_without_age 7 fresh);
      [reflexivity | left; reflexivity].
  - apply (age_field_policy (world email_taken) (submit "thirty") 7 fresh
             eq_refl) with (s := "thirty");
      [reflexivity | discriminate | reflexivity].
Defined.

Lemma add_user_failure_discards_input_witness :
  fst (add_user (world connection_refused) (submit "30") fresh)
    = Return (Page "add_user.html" []).
Proof.
  apply (add_user_failure_discards_input (world connection_refused)
           (submit "30") fresh (VInt 30) None);
    reflexivity.
Defined.

Lemma add_user_duplicate_email_generic_text_witness :
  fst (add_user (world email_taken) (submit "30") fresh)
    = Return (Page "add_user.html" []) /\
  flashes (snd (add_user (world email_taken) (submit "30") fresh))
    = [mkNote "error" "Error: Failed to create user"].
Proof.
  apply (add_user_duplicate_email_generic_text (world email_taken)
           (submit "30") fresh (VInt 30)
           (mkResponse 400
              (inr (VDict [("error", VStr "email already exists")]))));
    reflexivity.
Defined.

(** C2, as stated, fails when the user is gone: the update is answered with
    a 404, and so is the second fetch; the view redirects to the list with
    two error notifications instead of rendering the edit form with one. *)
Lemma edit_user_gone_redirects :
  delivered
    (network (world user_gone)
       (update_call (world user_gone) 7
          (user_payload (submit "30") (VInt 30))))
    = Some (Some (mkResponse 404
                    (inr (VDict [("error", VStr "User not found")])))) /\
  fst (edit_user (world user_gone) (submit "30") 7 fresh)
    = Return (RedirectTo "/") /\
  flashes (snd (edit_user (world user_gone) (submit "30") 7 fresh))
    = [mkNote "error" "Error: Failed to update user";
       mkNote "error" "User not found"].
Proof.
  split; [reflexivity | split; reflexivity].
Qed.

Lemma edit_user_failed_update_witness :
  fst (edit_user (world read_only) (submit "30") 7 fresh)
    = Return (Page "edit_user.html" [("user", alice)]) /\
  flashes (snd (edit_user (world read_only) (submit "30") 7 fresh))
    = [mkNote "error" "Error: Failed to update user"].
Proof.
  destruct (edit_user_failed_update (world read_only) (submit "30") 7 fresh
              (VInt 30) None
              (Some (mkResponse 200 (inr (VDict [("data", alice)]))))
              eq_refl eq_refl eq_refl eq_refl eq_refl)
    as (text & Habsent & _ & Hout).
  cbv zeta in Hout. cbn [status_is status_code Z.eqb Pos.eqb] in Hout.
  destruct Hout as (Hfl & Hpage & _ & _).
  rewrite (Habsent eq_refl) in Hfl.
  split.
  - exact (Hpage _ _ eq_refl eq_refl).
  - exact Hfl.
Defined.

(** ** More on the model *)

(** A non-empty string of ASCII digits is numeric. *)
Lemma scan_digits_all_digits s :
  forall acc digits,
    all_chars is_digit s = true ->
    exists v,
      scan_digits false acc digits s
        = Some (v, (digits + String.length s)%nat, "").
Proof.
  induction s as [| c r IH]; intros acc digits Hall.
  - exists acc. cbn. rewrite Nat.add_0_r. reflexivity.
  - cbn [all_chars] in Hall. apply andb_prop in Hall as [Hc Hr].
    unfold is_digit in Hc. cbn [scan_digits String.length].
    destruct (digit_value c) as [d |] eqn:Ed; [| discriminate].
    assert (Hus : Ascii.eqb c "_" = false).
    { destruct (Ascii.eqb_spec c "_") as [-> | _];
        [discriminate Ed | reflexivity]. }
    rewrite Hus.
    destruct (IH (acc * 10 + d) (S digits) Hr) as (v & ->).
    exists v. rewrite Nat.add_succ_r. reflexivity.
Qed.

Lemma digit_is_ascii c :
  is_digit c = true -> (Z.of_nat (nat_of_ascii c) <? 128) = true.
Proof.
  unfold is_digit, digit_value.
  destruct ((48 <=? Z.of_nat (nat_of_ascii c))
            && (Z.of_nat (nat_of_ascii c) <=? 57)) eqn:E; [| discriminate].
  intros _. apply andb_prop in E as [_ E]. apply Z.leb_le in E.
  apply Z.ltb_lt. lia.
Qed.

Lemma digit_is_no_space c : is_digit c = true -> Py_ISSPACE c = false.
Proof.
  unfold is_digit, digit_value, Py_ISSPACE.
  destruct ((48 <=? Z.of_nat (nat_of_ascii c))
            && (Z.of_nat (nat_of_ascii c) <=? 57)) eqn:E; [| discriminate].
  intros _. apply andb_prop in E as [E _]. apply Z.leb_le in E.
  apply orb_false_iff. split.
  - apply andb_false_iff. right. apply Z.leb_gt. lia.
  - apply Z.eqb_neq. lia.
Qed.

Lemma digits_are_ascii s : all_chars is_digit s = true -> is_ascii s = true.
Proof.
  unfold is_ascii. induction s as [| c r IH]; [reflexivity |].
  cbn [all_chars list_ascii_of_string forallb].
  intros H. apply andb_prop in H as [Hc Hr].
  rewrite (digit_is_ascii c Hc), (IH Hr). reflexivity.
Qed.

Lemma digits_are_numeric env s :
  s <> "" ->
  all_chars is_digit s = true ->
  numeric env s = true.
Proof.
  intros Hs Hall. unfold numeric. rewrite (digits_are_ascii s Hall).
  destruct s as [| c r]; [contradiction |].
  pose proof Hall as Hall'. cbn [all_chars] in Hall'.
  apply andb_prop in Hall' as [Hc _].
  unfold PyLong_FromString. cbn [skip_space].
  rewrite (digit_is_no_space c Hc).
  assert (Hplus : Ascii.eqb c "+" = false).
  { destruct (Ascii.eqb_spec c "+") as [-> | _];
      [discriminate Hc | reflexivity]. }
  assert (Hminus : Ascii.eqb c "-" = false).
  { destruct (Ascii.eqb_spec c "-") as [-> | _];
      [discriminate Hc | reflexivity]. }
  assert (Hus : Ascii.eqb c "_" = false).
  { destruct (Ascii.eqb_spec c "_") as [-> | _];
      [discriminate Hc | reflexivity]. }
  cbn [take_sign]. rewrite Hplus, Hminus.
  unfold long_from_string_base.
  replace (String.prefix "_" (String c r)) with false.
  2:{ cbn [String.prefix]. destruct (Ascii.ascii_dec "_" c) as [<- | _];
        [discriminate Hus | reflexivity]. }
  destruct (scan_digits_all_digits (String c r) 0 0 Hall) as (v & ->).
  reflexivity.
Qed.

(** X21: a failed create submission answered with a truthy response (a
    status outside 400..599 and other than 201) does show the body's [error]
    entry. *)
Lemma add_user_truthy_failure_shows_body env req st age r d msg :
  method req = "POST" ->
  age_field env req = inr age ->
  network env (create_call env (user_payload req age)) = Answers r ->
  status_code r <> 201 ->
  Response_bool r = true ->
  json r = inr (VDict d) ->
  assoc "error" d = Some (VStr msg) ->
  flashes (snd (add_user env req st)) =
    (flashes st ++ [mkNote "error" ("Error: " ++ msg)])%list.
Proof.
  intros Hm Ha Hn Hs Hb Hj He.
  destruct (add_user_post env req st age (Some r) Hm Ha)
    as (st1 & Hfl & _ & ->); [rewrite Hn; reflexivity |].
  cbn [status_is]. apply Z.eqb_neq in Hs. rewrite Hs.
  cbn [snd queued flashes error_text]. rewrite Hb.
  unfold body_error. rewrite Hj, He, Hfl. reflexivity.
Qed.

(** X19: for every client or server error status the notification of a
    failed create submission carries the generic text, whatever the body
    says. *)
Lemma add_user_error_status_generic_text env req st age r :
  method req = "POST" ->
  age_field env req = inr age ->
  network env (create_call env (user_payload req age)) = Answers r ->
  400 <= status_code r < 600 ->
  flashes (snd (add_user env req st)) =
    (flashes st ++ [mkNote "error" "Error: Failed to create user"])%list.
Proof.
  intros Hm Ha Hn Hs.
  destruct (add_user_post env req st age (Some r) Hm Ha)
    as (st1 & Hfl & _ & ->); [rewrite Hn; reflexivity |].
  cbn [status_is].
  replace (status_code r =? 201) with false
    by (symmetry; apply Z.eqb_neq; lia).
  cbn [snd queued flashes error_text].
  pose proof (truthy_error_status r Hs) as Hf. cbn [truthy] in Hf.
  rewrite Hf, Hfl. reflexivity.
Qed.

(** * Further properties of the code *)

(** ** The adapter, beyond network failures *)

(** X2: with a supported method the adapter hands exactly one call to
    [requests], whatever comes of it: the configured base URL followed by
    the endpoint, a timeout of 10 seconds, and the payload for POST and PUT
    only (GET and DELETE drop it).  It never touches the notifications. *)
Theorem make_api_request_sends_one_call env m endpoint data st :
  supported m ->
  calls (snd (make_api_request env m endpoint data st)) =
    (calls st
     ++ [mkCall m (fmt_optstr (API_BASE_URL env) ++ endpoint)
           (if String.eqb m "GET" || String.eqb m "DELETE" then None
            else data)
           10])%list /\
  flashes (snd (make_api_request env m endpoint data st)) = flashes st.
Proof.
  intros Hm. rewrite make_api_request_run by assumption. cbv zeta.
  assert (Hcall : adapter_call env m endpoint data =
                  mkCall m (fmt_optstr (API_BASE_URL env) ++ endpoint)
                    (if String.eqb m "GET" || String.eqb m "DELETE"
                     then None else data) 10).
  { destruct Hm as [-> | [-> | [-> | ->]]]; reflexivity. }
  rewrite <- Hcall.
  destruct (network env _) as [r | e]; [split; reflexivity |].
  destruct (is_RequestException e); split; reflexivity.
Qed.

(** X3: with a supported method the adapter returns a response exactly when
    the backend answered, with that very answer and whatever its status;
    it raises exactly when [requests] raised an exception outside the
    [RequestException] family, and then that exception; it returns [None]
    exactly on an exception of the family. *)
Theorem make_api_request_outcomes env m endpoint data st :
  supported m ->
  (forall r,
     fst (make_api_request env m endpoint data st) = Return (Some r) <->
     network env (adapter_call env m endpoint data) = Answers r) /\
  (forall e,
     fst (make_api_request env m endpoint data st) = Raise e <->
     network env (adapter_call env m endpoint data) = Fails e /\
     is_RequestException e = false) /\
  (fst (make_api_request env m endpoint data st) = Return None <->
   network_failure (network env (adapter_call env m endpoint data))).
Proof.
  intros Hm. rewrite make_api_request_run by assumption. cbv zeta.
  destruct (network env _) as [r0 | e0]; cbn [network_failure].
  - cbn [fst]. repeat split; intros;
      repeat match goal with H : _ /\ _ |- _ => destruct H end;
      try contradiction; congruence.
  - destruct (is_RequestException e0) eqn:E; cbn [fst]; repeat split; intros;
      repeat match goal with H : _ /\ _ |- _ => destruct H end;
      congruence.
Qed.

(** ** The list view, case by case *)

Lemma index_run env st :
  index env st =
    let c := index_call env in
    match network env c with
    | Answers r =>
        if status_code r =? 200 then
          match json r with
          | inr (VDict d) =>
              (Return (index_page env (entry_or d "data" (VList []))),
               sent st c)
          | inr v => index_recovered env (sent st c) (no_get v)
          | inl e =>
              if is_Exception e then index_recovered env (sent st c) e
              else (Raise e, sent st c)
          end
        else
          (Return (index_page env (VList [])),
           queued (sent st c)
             (mkNote "error" "Failed to load users from API"))
    | Fails e =>
        if is_RequestException e then
          (Return (index_page env (VList [])),
           queued (log_failure st c e)
             (mkNote "error" "Failed to load users from API"))
        else if is_Exception e then index_recovered env (sent st c) e
        else (Raise e, sent st c)
    end.
Proof.
  cbv [index]. unfold bind at 1. unfold try_except. unfold bind at 1.
  rewrite make_api_request_run by (left; reflexivity). cbv zeta.
  fold (index_call env).
  destruct (network env (index_call env)) as [r | e].
  - rewrite and_status_is_spec by lia. cbn [status_is].
    destruct (status_code r =? 200); [| reflexivity].
    run_monad. destruct (json r) as [e | v].
    + destruct (is_Exception e); reflexivity.
    + destruct v; try reflexivity.
      unfold entry_or. destruct (assoc "data" d); reflexivity.
  - destruct (is_RequestException e); [reflexivity |].
    destruct (is_Exception e); reflexivity.
Qed.

(** X4: as long as nothing raises outside [Exception] (a keyboard
    interrupt, an exit), the list view always renders the list page: backend
    trouble of any kind costs at most one notification, and the backend is
    called exactly once. *)
Theorem index_always_renders env st :
  (forall e,
     network env (index_call env) = Fails e -> is_Exception e = true) ->
  (forall r e,
     network env (index_call env) = Answers r -> json r = inl e ->
     is_Exception e = true) ->
  exists users added,
    fst (index env st) = Return (index_page env users) /\
    flashes (snd (index env st)) = (flashes st ++ added)%list /\
    (List.length added <= 1)%nat /\
    calls (snd (index env st)) = (calls st ++ [index_call env])%list.
Proof.
  intros Hnet Hjson. rewrite index_run. cbv zeta.
  destruct (network env (index_call env)) as [r | e].
  - destruct (status_code r =? 200).
    + destruct (json r) as [e | v] eqn:Ej.
      * rewrite (Hjson r e eq_refl Ej).
        exists (VList []), [mkNote "error" "Error connecting to backend API"].
        repeat split. cbn. lia.
      * destruct v;
          try (exists (VList []),
                 [mkNote "error" "Error connecting to backend API"];
               repeat split; cbn; lia).
        exists (entry_or d "data" (VList [])), [].
        repeat split; [| cbn; lia]. cbn. symmetry. apply app_nil_r.
    + exists (VList []), [mkNote "error" "Failed to load users from API"].
      repeat split. cbn. lia.
  - destruct (is_RequestException e).
    + exists (VList []), [mkNote "error" "Failed to load users from API"].
      repeat split. cbn. lia.
    + rewrite (Hnet e eq_refl).
      exists (VList []), [mkNote "error" "Error connecting to backend API"].
      repeat split. cbn. lia.
Qed.

(** X5: a 200 answer whose body does not parse, or parses to something
    other than an object, is handled by the [except Exception] clause: the
    list page shows zero records, one error notification [Error connecting
    to backend API] is queued and the exception is logged. *)
Theorem index_unreadable_body env st r :
  network env (index_call env) = Answers r ->
  status_code r = 200 ->
  forall e,
    (json r = inl e /\ is_Exception e = true) \/
    (exists v, json r = inr v /\ (forall d, v <> VDict d) /\ e = no_get v) ->
    fst (index env st) = Return (index_page env (VList [])) /\
    flashes (snd (index env st)) =
      (flashes st ++ [mkNote "error" "Error connecting to backend API"])%list /\
    log (snd (index env st)) =
      (log st
       ++ [("ERROR", ("Error loading users: " ++ exc_str e)%string)])%list.
Proof.
  intros Hn Hs e Hbody. rewrite index_run. cbv zeta. rewrite Hn, Hs.
  cbn [Z.eqb Pos.eqb].
  destruct Hbody as [[Hj He] | (v & Hj & Hv & ->)]; rewrite Hj.
  - rewrite He. repeat split.
  - destruct v; try solve [repeat split].
    exfalso. apply (Hv d). reflexivity.
Qed.

(** X6: the list view does not check what lies under [data]: on a 200
    answer with an object body, whatever value the key holds is handed to
    the template as [users], and nothing is queued. *)
Theorem index_passes_data_through env st r d v :
  network env (index_call env) = Answers r ->
  status_code r = 200 ->
  json r = inr (VDict d) ->
  assoc "data" d = Some v ->
  fst (index env st) = Return (index_page env v) /\
  flashes (snd (index env st)) = flashes st.
Proof.
  intros Hn Hs Hj Hd. rewrite index_run. cbv zeta. rewrite Hn, Hs, Hj.
  unfold entry_or. rewrite Hd. split; reflexivity.
Qed.

(** ** The create view *)

(** X7: a request to the create route with any method other than POST
    renders the empty creation form and does nothing else: no call to the
    backend, no notification, no log line. *)
Theorem add_user_get_renders_form env req st :
  method req <> "POST" ->
  add_user env req st = (Return (Page "add_user.html" []), st).
Proof.
  intros Hm. cbv [add_user].
  destruct (String.eqb_spec (method req) "POST") as [E | _];
    [contradiction | reflexivity].
Qed.

(** X8: a create submission redirects to the list exactly when the backend
    answered with status 201 (a 200 counts as a failure); the redirect comes
    with one success notification, and in either case the backend was called
    exactly once. *)
Theorem add_user_redirects_iff_created env req st age response :
  method req = "POST" ->
  age_field env req = inr age ->
  delivered (network env (create_call env (user_payload req age)))
    = Some response ->
  (fst (add_user env req st) = Return (RedirectTo (url_for "index")) <->
   status_is response 201 = true) /\
  (status_is response 201 = true ->
   flashes (snd (add_user env req st)) =
     (flashes st ++ [mkNote "success" "User created successfully! 🎉"])%list) /\
  calls (snd (add_user env req st)) =
    (calls st ++ [create_call env (user_payload req age)])%list.
Proof.
  intros Hm Ha Hd.
  destruct (add_user_post env req st age response Hm Ha Hd)
    as (st1 & Hfl & Hcalls & ->).
  destruct (status_is response 201); cbn [fst snd queued flashes calls].
  - rewrite Hfl. repeat split; intros; congruence.
  - repeat split; intros; congruence.
Qed.

(** ** The edit view *)

Lemma get_user_for_editing_full env user_id st :
  get_user_for_editing env user_id st =
    let c := fetch_call env user_id in
    match network env c with
    | Answers r =>
        if status_code r =? 200 then
          match json r with
          | inr (VDict d) =>
              (Return (Page "edit_user.html"
                         [("user", entry_or d "data" VNone)]),
               sent st c)
          | inr v => (Raise (no_get v), sent st c)
          | inl e => (Raise e, sent st c)
          end
        else
          (Return (RedirectTo (url_for "index")),
           queued (sent st c) (mkNote "error" "User not found"))
    | Fails e =>
        if is_RequestException e then
          (Return (RedirectTo (url_for "index")),
           queued (log_failure st c e) (mkNote "error" "User not found"))
        else (Raise e, sent st c)
    end.
Proof.
  cbv [get_user_for_editing]. unfold bind at 1.
  rewrite make_api_request_run by (left; reflexivity). cbv zeta.
  fold (fetch_call env user_id).
  destruct (network env (fetch_call env user_id)) as [r | e].
  - rewrite and_status_is_spec by lia. cbn [status_is].
    destruct (status_code r =? 200); [| reflexivity].
    run_monad. destruct (json r) as [e | v]; [reflexivity |].
    destruct v; try reflexivity.
    unfold entry_or. destruct (assoc "data" d); reflexivity.
  - destruct (is_RequestException e); reflexivity.
Qed.

Lemma get_user_for_editing_one_call env user_id st :
  calls (snd (get_user_for_editing env user_id st)) =
    (calls st ++ [fetch_call env user_id])%list.
Proof.
  rewrite get_user_for_editing_full. cbv zeta.
  destruct (network env _) as [r | e].
  - destruct (status_code r =? 200); [| reflexivity].
    destruct (json r) as [e | v]; [reflexivity |].
    destruct v; reflexivity.
  - destruct (is_RequestException e); reflexivity.
Qed.

Lemma edit_user_not_post env req user_id st :
  method req <> "POST" ->
  edit_user env req user_id st = get_user_for_editing env user_id st.
Proof.
  intros Hm. cbv [edit_user].
  destruct (String.eqb_spec (method req) "POST") as [E | _];
    [contradiction | reflexivity].
Qed.

(** X9: a request to the edit route with a method other than POST fetches
    the user, and nothing else, from the backend.  A 200 answer with an
    object body renders the edit form with the value under [data], or with
    [None] when the key is missing, and queues nothing; an absent response
    or another status queues [User not found] and redirects to the list. *)
Theorem edit_user_get_form env req user_id st response :
  method req <> "POST" ->
  delivered (network env (fetch_call env user_id)) = Some response ->
  calls (snd (edit_user env req user_id st)) =
    (calls st ++ [fetch_call env user_id])%list /\
  (status_is response 200 = false ->
   fst (edit_user env req user_id st) = Return (RedirectTo (url_for "index")) /\
   flashes (snd (edit_user env req user_id st)) =
     (flashes st ++ [mkNote "error" "User not found"])%list) /\
  (forall r d,
     response = Some r -> status_code r = 200 -> json r = inr (VDict d) ->
     fst (edit_user env req user_id st) =
       Return (Page "edit_user.html" [("user", entry_or d "data" VNone)]) /\
     flashes (snd (edit_user env req user_id st)) = flashes st).
Proof.
  intros Hm Hd. rewrite (edit_user_not_post env req user_id st Hm).
  split; [apply get_user_for_editing_one_call |].
  rewrite get_user_for_editing_full. cbv zeta.
  destruct (network env (fetch_call env user_id)) as [r0 | e0];
    cbn [delivered] in Hd.
  - injection Hd as <-. cbn [status_is]. split.
    + intros ->. split; reflexivity.
    + intros r d [= <-] Hs Hj. rewrite Hs, Hj. split; reflexivity.
  - destruct (is_RequestException e0); [| discriminate Hd].
    injection Hd as <-. split.
    + intros _. split; reflexivity.
    + intros r d Hr. discriminate Hr.
Qed.

(** X10: unlike the list view, the edit view has no handler around its
    fetch: a 200 answer whose body does not parse, or parses to something
    other than an object, makes the view raise, with nothing queued. *)
Theorem edit_user_unreadable_body_raises env req user_id st r e :
  method req <> "POST" ->
  network env (fetch_call env user_id) = Answers r ->
  status_code r = 200 ->
  json r = inl e \/
  (exists v, json r = inr v /\ (forall d, v <> VDict d) /\ e = no_get v) ->
  fst (edit_user env req user_id st) = Raise e /\
  flashes (snd (edit_user env req user_id st)) = flashes st.
Proof.
  intros Hm Hn Hs Hbody. rewrite (edit_user_not_post env req user_id st Hm).
  rewrite get_user_for_editing_full. cbv zeta. rewrite Hn, Hs.
  cbn [Z.eqb Pos.eqb].
  destruct Hbody as [Hj | (v & Hj & Hv & ->)]; rewrite Hj.
  - split; reflexivity.
  - destruct v; try solve [split; reflexivity].
    exfalso. apply (Hv d). reflexivity.
Qed.

(** X11: an update that the backend answers with status 200 queues one
    success notification and redirects to the list after a single call: the
    user is not fetched again. *)
Theorem edit_user_success env req user_id st age response :
  method req = "POST" ->
  age_field env req = inr age ->
  delivered (network env (update_call env user_id (user_payload req age)))
    = Some response ->
  status_is response 200 = true ->
  fst (edit_user env req user_id st) = Return (RedirectTo (url_for "index")) /\
  flashes (snd (edit_user env req user_id st)) =
    (flashes st ++ [mkNote "success" "User updated successfully! ✅"])%list /\
  calls (snd (edit_user env req user_id st)) =
    (calls st ++ [update_call env user_id (user_payload req age)])%list.
Proof.
  intros Hm Ha Hd Hs.
  destruct (edit_user_post env req user_id st age response Hm Ha Hd)
    as (st1 & Hfl & Hcalls & ->).
  rewrite Hs. cbn [fst snd queued flashes calls].
  rewrite Hfl, Hcalls. repeat split.
Qed.

(** X12: an update that fails (absent response or a status other than 200)
    is followed by exactly one more call, the fetch of the same user,
    whatever comes of it: two calls in all, the PUT first. *)
Theorem edit_user_failure_two_calls env req user_id st age response :
  method req = "POST" ->
  age_field env req = inr age ->
  delivered (network env (update_call env user_id (user_payload req age)))
    = Some response ->
  status_is response 200 = false ->
  calls (snd (edit_user env req user_id st)) =
    (calls st ++ [update_call env user_id (user_payload req age);
                  fetch_call env user_id])%list.
Proof.
  intros Hm Ha Hd Hs.
  destruct (edit_user_post env req user_id st age response Hm Ha Hd)
    as (st1 & Hfl & Hcalls & ->).
  rewrite Hs, get_user_for_editing_one_call. cbn [queued calls].
  rewrite Hcalls, <- app_assoc. reflexivity.
Qed.

(** ** The delete view, case by case *)

Lemma delete_user_run env user_id st :
  delete_user env user_id st =
    let c := delete_call env user_id in
    match network env c with
    | Answers r =>
        (Return (RedirectTo (url_for "index")),
         queued (sent st c) (delete_note (Some r)))
    | Fails e =>
        if is_RequestException e then
          (Return (RedirectTo (url_for "index")),
           queued (log_failure st c e) (delete_note None))
        else (Raise e, sent st c)
    end.
Proof.
  cbv [delete_user]. unfold bind at 1.
  rewrite make_api_request_run by (do 3 right; reflexivity). cbv zeta.
  fold (delete_call env user_id).
  destruct (network env (delete_call env user_id)) as [r | e].
  - rewrite and_status_is_spec by lia. unfold delete_note.
    destruct (status_is (Some r) 200); reflexivity.
  - destruct (is_RequestException e); reflexivity.
Qed.

(** X13: the delete view sends exactly one call, a DELETE without a body
    to [/users/<id>] under the base URL; it raises exactly when [requests]
    raised outside the [RequestException] family, and then no notification
    has been queued. *)
Theorem delete_user_one_call env user_id st :
  calls (snd (delete_user env user_id st)) =
    (calls st
     ++ [mkCall "DELETE"
           (fmt_optstr (API_BASE_URL env) ++ "/users/" ++ str_of_int user_id)
           None 10])%list /\
  (forall e,
     fst (delete_user env user_id st) = Raise e <->
     network env (delete_call env user_id) = Fails e /\
     is_RequestException e = false) /\
  (forall e,
     fst (delete_user env user_id st) = Raise e ->
     flashes (snd (delete_user env user_id st)) = flashes st).
Proof.
  rewrite delete_user_run. cbv zeta.
  destruct (network env (delete_call env user_id)) as [r | e0].
  - cbn [fst snd]. repeat split; intros;
      repeat match goal with H : _ /\ _ |- _ => destruct H end;
      congruence.
  - destruct (is_RequestException e0) eqn:E; cbn [fst snd];
      repeat split; intros;
      repeat match goal with H : _ /\ _ |- _ => destruct H end;
      congruence.
Qed.

(** ** The health view *)

(** X14: the health view never raises, whatever happens to its call, a
    keyboard interrupt included: it always answers with the JSON report, in
    which [frontend] is [healthy], [api_url] is the configured URL and
    [backend] is one of the three status words.  It calls the backend once
    and queues no notification. *)
Theorem health_check_always_reports env st :
  exists backend_status,
    fst (health_check env st) = Return (health_report env backend_status) /\
    In backend_status ["healthy"; "unhealthy"; "unreachable"] /\
    flashes (snd (health_check env st)) = flashes st /\
    calls (snd (health_check env st)) = (calls st ++ [health_call env])%list.
Proof.
  rewrite health_check_run.
  destruct (network env (health_call env)) as [r | e].
  - destruct (status_code r =? 200).
    + exists "healthy". repeat split. left. reflexivity.
    + exists "unhealthy". repeat split. right. left. reflexivity.
  - destruct (is_RequestException e).
    + exists "unhealthy". repeat split. right. left. reflexivity.
    + exists "unreachable". repeat split. do 2 right. left. reflexivity.
Qed.

(** ** The operations of the monad only add to the state *)

Lemma grows_refl {A} (l : list A) : grows l l.
Proof. exists []. symmetry. apply app_nil_r. Qed.

Lemma grows_app {A} (l added : list A) : grows l (l ++ added).
Proof. exists added. reflexivity. Qed.

Lemma grows_trans {A} (l1 l2 l3 : list A) :
  grows l1 l2 -> grows l2 l3 -> grows l1 l3.
Proof.
  intros [a ->] [b ->]. exists (a ++ b)%list. symmetry. apply app_assoc.
Qed.

Lemma extends_refl st : extends st st.
Proof. repeat split; apply grows_refl. Qed.

Lemma extends_trans st1 st2 st3 :
  extends st1 st2 -> extends st2 st3 -> extends st1 st3.
Proof.
  intros (F1 & L1 & C1) (F2 & L2 & C2).
  repeat split; eapply grows_trans; eassumption.
Qed.

Lemma keeps_ret {A} (a : A) : keeps_history (ret a).
Proof. intros st. apply extends_refl. Qed.

Lemma keeps_raise {A} (e : exception) : keeps_history (@raise A e).
Proof. intros st. apply extends_refl. Qed.

Lemma keeps_lift {A} (r : exception + A) : keeps_history (lift r).
Proof. destruct r; [apply keeps_raise | apply keeps_ret]. Qed.

Lemma keeps_flash msg cat : keeps_history (flash msg cat).
Proof.
  intros st. repeat split; cbn; [apply grows_app | apply grows_refl ..].
Qed.

Lemma keeps_logger_error text : keeps_history (logger_error text).
Proof.
  intros st. repeat split; cbn;
    [apply grows_refl | apply grows_app | apply grows_refl].
Qed.

Lemma keeps_requests_call env c : keeps_history (requests_call env c).
Proof.
  intros st. unfold requests_call.
  destruct (network env c); repeat split; cbn;
    first [apply grows_app | apply grows_refl].
Qed.

Lemma keeps_bind {A B} (m : M A) (k : A -> M B) :
  keeps_history m -> (forall a, keeps_history (k a)) ->
  keeps_history (bind m k).
Proof.
  intros Hm Hk st. unfold bind. specialize (Hm st).
  destruct (m st) as [[a | e] st1]; cbn [snd] in Hm |- *.
  - eapply extends_trans; [exact Hm | apply Hk].
  - exact Hm.
Qed.

Lemma keeps_try_except {A} (body : M A) catches handler :
  keeps_history body -> (forall e, keeps_history (handler e)) ->
  keeps_history (try_except body catches handler).
Proof.
  intros Hb Hh st. unfold try_except. specialize (Hb st).
  destruct (body st) as [[a | e] st1]; cbn [snd] in Hb |- *;
    [exact Hb |].
  destruct (catches e); [| exact Hb].
  eapply extends_trans; [exact Hb | apply Hh].
Qed.

Lemma keeps_if {A} (b : bool) (m1 m2 : M A) :
  keeps_history m1 -> keeps_history m2 ->
  keeps_history (if b then m1 else m2).
Proof. destruct b; auto. Qed.

Lemma keeps_py_get v key default : keeps_history (py_get v key default).
Proof.
  unfold py_get. destruct v; try apply keeps_raise.
  destruct (assoc key d); apply keeps_ret.
Qed.

Lemma keeps_Response_json response : keeps_history (Response_json response).
Proof.
  unfold Response_json. destruct response; [apply keeps_lift | apply keeps_raise].
Qed.

Create HintDb history.

#[local] Hint Resolve keeps_ret keeps_raise keeps_lift keeps_flash
  keeps_logger_error keeps_requests_call keeps_py_get keeps_Response_json
  keeps_bind keeps_try_except keeps_if : history.

#[local] Hint Extern 4 (keeps_history (match ?x with _ => _ end)) =>
  destruct x : history.

Lemma keeps_make_api_request env m endpoint data :
  keeps_history (make_api_request env m endpoint data).
Proof.
  unfold make_api_request, requests_get, requests_post, requests_put,
    requests_delete.
  auto 20 with history.
Qed.

#[local] Hint Resolve keeps_make_api_request : history.

Lemma keeps_get_user_for_editing env user_id :
  keeps_history (get_user_for_editing env user_id).
Proof.
  unfold get_user_for_editing, render_template, redirect.
  auto 20 with history.
Qed.

(** ** [int] reads back what [str] writes *)

Lemma scan_digits_digit c v acc digits r :
  digit_value c = Some v ->
  scan_digits false acc digits (String c r) =
    scan_digits false (acc * 10 + v) (S digits) r.
Proof.
  intros Hv. cbn [scan_digits].
  destruct (Ascii.eqb_spec c "_") as [-> | _]; [discriminate Hv |].
  rewrite Hv. reflexivity.
Qed.

Lemma scan_digits_uint d :
  forall acc digits,
    scan_digits false acc digits (NilEmpty.string_of_uint d) =
      Some (horner acc d, (digits + Decimal.nb_digits d)%nat, "").
Proof.
  induction d; intros acc digits;
    cbn [NilEmpty.string_of_uint horner Decimal.nb_digits];
    try (erewrite scan_digits_digit by reflexivity;
         rewrite IHd, Nat.add_succ_r; reflexivity).
  cbn [scan_digits]. rewrite Nat.add_0_r. reflexivity.
Qed.

Lemma horner_pos d :
  forall p, horner (Zpos p) d = Zpos (Pos.of_uint_acc d p).
Proof.
  induction d; intros p; cbn [horner Pos.of_uint_acc];
    try reflexivity;
    match goal with
    | |- horner ?a _ = Zpos (Pos.of_uint_acc _ ?q) =>
        replace a with (Zpos q) by lia; apply IHd
    end.
Qed.

Lemma horner_zero d : horner 0 d = Z.of_N (Pos.of_uint d).
Proof.
  induction d; cbn [horner Pos.of_uint]; try reflexivity;
    try exact IHd;
    match goal with
    | |- horner ?a _ = _ =>
        let p := eval cbv in a in change a with p
    end;
    rewrite horner_pos; reflexivity.
Qed.

Lemma uint_string_digits d :
  all_chars is_digit (NilEmpty.string_of_uint d) = true.
Proof.
  induction d; cbn [NilEmpty.string_of_uint all_chars];
    try reflexivity; rewrite IHd; reflexivity.
Qed.

Lemma uint_string_length d :
  String.length (NilEmpty.string_of_uint d) = Decimal.nb_digits d.
Proof.
  induction d; cbn [NilEmpty.string_of_uint String.length Decimal.nb_digits];
    congruence.
Qed.

Lemma uint_string_head d :
  d <> Decimal.Nil ->
  exists c r,
    NilEmpty.string_of_uint d = String c r /\ is_digit c = true.
Proof.
  destruct d; [contradiction | ..]; intros _;
    cbn [NilEmpty.string_of_uint]; do 2 eexists; split; reflexivity.
Qed.

(** What [PyLong_FromString] does once it stands on a digit, with or
    without a minus sign in front. *)
Lemma PyLong_FromString_on_digit c r :
  is_digit c = true ->
  PyLong_FromString (String c r) =
    match long_from_string_base (String c r) with
    | Some (v, digits, rest) =>
        match skip_space rest with
        | EmptyString => Some (1 * v, digits)
        | String _ _ => None
        end
    | None => None
    end /\
  PyLong_FromString (String "-" (String c r)) =
    match long_from_string_base (String c r) with
    | Some (v, digits, rest) =>
        match skip_space rest with
        | EmptyString => Some (-1 * v, digits)
        | String _ _ => None
        end
    | None => None
    end.
Proof.
  intros Hc. unfold PyLong_FromString. split.
  - cbn [skip_space]. rewrite (digit_is_no_space c Hc). cbn [take_sign].
    destruct (Ascii.eqb_spec c "+") as [-> | _]; [discriminate Hc |].
    destruct (Ascii.eqb_spec c "-") as [-> | _]; [discriminate Hc |].
    reflexivity.
  - reflexivity.
Qed.

Lemma long_from_string_base_uint d :
  d <> Decimal.Nil ->
  long_from_string_base (NilEmpty.string_of_uint d) =
    Some (horner 0 d, Decimal.nb_digits d, "").
Proof.
  intros Hd. unfold long_from_string_base.
  rewrite scan_digits_uint. cbn [Nat.add].
  destruct (uint_string_head d Hd) as (c & r & -> & Hc).
  replace (String.prefix "_" (String c r)) with false.
  2:{ cbn [String.prefix]. destruct (Ascii.ascii_dec "_" c) as [<- | _];
        [discriminate Hc | reflexivity]. }
  destruct d; [contradiction | ..]; reflexivity.
Qed.

Lemma str_of_int_cases z :
  exists d,
    d <> Decimal.Nil /\
    Z.of_N (Pos.of_uint d) = Z.abs z /\
    ((0 <= z /\ str_of_int z = NilEmpty.string_of_uint d) \/
     (z < 0 /\ str_of_int z = String "-" (NilEmpty.string_of_uint d))).
Proof.
  destruct z as [| p | p].
  - exists (Decimal.D0 Decimal.Nil). repeat split; try discriminate.
    left. split; [lia | reflexivity].
  - exists (Pos.to_uint p).
    pose proof (Unsigned.to_uint_nonnil p) as Hn.
    split; [exact Hn |]. split; [rewrite Unsigned.of_to; reflexivity |].
    left. split; [lia |].
    unfold str_of_int. cbn [Z.to_int NilZero.string_of_int].
    unfold NilZero.string_of_uint.
    destruct (Pos.to_uint p); [contradiction | reflexivity ..].
  - exists (Pos.to_uint p).
    pose proof (Unsigned.to_uint_nonnil p) as Hn.
    split; [exact Hn |]. split; [rewrite Unsigned.of_to; reflexivity |].
    right. split; [lia |].
    unfold str_of_int. cbn [Z.to_int NilZero.string_of_int].
    unfold NilZero.string_of_uint.
    destruct (Pos.to_uint p); [contradiction | reflexivity ..].
Qed.

Lemma PyLong_FromString_str_of_int z :
  exists digits,
    PyLong_FromString (str_of_int z) = Some (z, digits) /\
    (digits <= String.length (str_of_int z))%nat /\
    is_ascii (str_of_int z) = true.
Proof.
  destruct (str_of_int_cases z) as (d & Hd & Hval & Hcases).
  exists (Decimal.nb_digits d).
  destruct (uint_string_head d Hd) as (c & r & Hs & Hc).
  pose proof (long_from_string_base_uint d Hd) as Hbase.
  pose proof (uint_string_digits d) as Hall.
  pose proof (uint_string_length d) as Hlen.
  rewrite Hs in Hbase, Hall, Hlen.
  destruct (PyLong_FromString_on_digit c r Hc) as [Hplus Hminus].
  rewrite Hbase in Hplus, Hminus. cbn [skip_space] in Hplus, Hminus.
  rewrite horner_zero, Hval in Hplus, Hminus.
  destruct Hcases as [[Hz ->] | [Hz ->]]; rewrite Hs.
  - rewrite Hplus. replace (1 * Z.abs z) with z by lia.
    split; [reflexivity |]. split; [rewrite Hlen; lia |].
    apply digits_are_ascii. exact Hall.
  - rewrite Hminus. replace (-1 * Z.abs z) with z by lia.
    split; [reflexivity |].
    split.
    { change (String.length (String "-" (String c r)))
        with (S (String.length (String c r))).
      rewrite Hlen. lia. }
    change (is_ascii (String "-" (String c r)))
      with ((Z.of_nat (nat_of_ascii "-") <? 128) && is_ascii (String c r)).
    rewrite (digits_are_ascii _ Hall). reflexivity.
Qed.

Lemma py_int_str_of_int env z :
  (String.length (str_of_int z) <= 640)%nat ->
  py_int env (str_of_int z) = inr z.
Proof.
  intros Hlen.
  destruct (PyLong_FromString_str_of_int z) as (digits & Hp & Hd & Ha).
  unfold py_int. rewrite Ha, Hp.
  replace (MAX_STR_DIGITS_THRESHOLD <? digits)%nat with false;
    [reflexivity |].
  symmetry. apply Nat.ltb_ge. unfold MAX_STR_DIGITS_THRESHOLD. lia.
Qed.

Lemma str_of_int_not_empty z : str_truthy (str_of_int z) = true.
Proof.
  destruct (str_of_int_cases z) as (d & Hd & _ & Hcases).
  destruct (uint_string_head d Hd) as (c & r & Hs & _).
  destruct Hcases as [[_ ->] | [_ ->]]; [rewrite Hs |]; reflexivity.
Qed.

(** X16: an age field that holds the decimal text of an integer, as [str]
    writes it and of at most 640 characters, is sent to the backend as that
    very integer by both form views; nothing checks its sign or its
    size. *)
Theorem decimal_age_is_sent env req user_id st z :
  method req = "POST" ->
  form_get req "age" = Some (str_of_int z) ->
  (String.length (str_of_int z) <= 640)%nat ->
  first_call_sent st (snd (add_user env req st)) =
    Some (create_call env (user_payload req (VInt z))) /\
  first_call_sent st (snd (edit_user env req user_id st)) =
    Some (update_call env user_id (user_payload req (VInt z))).
Proof.
  intros Hm Hget Hlen.
  assert (Ha : age_field env req = inr (VInt z)).
  { unfold age_field.
    rewrite Hget, str_of_int_not_empty, (py_int_str_of_int env z Hlen).
    reflexivity. }
  split.
  - exact (add_user_first_call env req st (VInt z) Hm Ha).
  - exact (edit_user_first_call env req user_id st (VInt z) Hm Ha).
Qed.

(** ** Ages that [int] rejects *)

Lemma skip_space_blank s :
  all_chars Py_ISSPACE s = true -> skip_space s = "".
Proof.
  induction s as [| c r IH]; [reflexivity |].
  cbn [all_chars skip_space]. intros H. apply andb_prop in H as [Hc Hr].
  rewrite Hc. exact (IH Hr).
Qed.

Lemma blank_is_ascii s :
  all_chars Py_ISSPACE s = true -> is_ascii s = true.
Proof.
  unfold is_ascii. induction s as [| c r IH]; [reflexivity |].
  cbn [all_chars list_ascii_of_string forallb].
  intros H. apply andb_prop in H as [Hc Hr]. rewrite (IH Hr).
  unfold Py_ISSPACE in Hc. apply orb_prop in Hc.
  replace (Z.of_nat (nat_of_ascii c) <? 128) with true; [reflexivity |].
  symmetry. apply Z.ltb_lt.
  destruct Hc as [Hc | Hc].
  - apply andb_prop in Hc as [_ Hc]. apply Z.leb_le in Hc. lia.
  - apply Z.eqb_eq in Hc. lia.
Qed.

Lemma blank_not_numeric env s :
  all_chars Py_ISSPACE s = true -> numeric env s = false.
Proof.
  intros H. unfold numeric, PyLong_FromString.
  rewrite (blank_is_ascii s H), (skip_space_blank s H). reflexivity.
Qed.

(** X17: an age field of white space only is not taken for an empty one:
    [int] rejects it and both form views end with a [ValueError], before
    any call or notification. *)
Theorem blank_age_raises env req user_id st s :
  method req = "POST" ->
  form_get req "age" = Some s ->
  s <> "" ->
  all_chars Py_ISSPACE s = true ->
  exists e,
    exc_class_of e = ValueError /\
    add_user env req st = (Raise e, st) /\
    edit_user env req user_id st = (Raise e, st).
Proof.
  intros Hm Hget Hs Hblank.
  pose proof (age_field_not_numeric env req s Hget Hs
                (blank_not_numeric env s Hblank)) as Ha.
  eexists. split; [| exact (form_views_raise env req user_id st _ Hm Ha)].
  reflexivity.
Qed.

(** X18: an ASCII age field with a character that is no digit, sign,
    underscore or white space (a letter, a decimal point, a comma) makes
    both form views end with a [ValueError], before any call or
    notification. *)
Theorem foreign_character_age_raises env req user_id st s :
  method req = "POST" ->
  form_get req "age" = Some s ->
  is_ascii s = true ->
  all_chars literal_char s = false ->
  exists e,
    exc_class_of e = ValueError /\
    add_user env req st = (Raise e, st) /\
    edit_user env req user_id st = (Raise e, st).
Proof.
  intros Hm Hget Hascii Hchars.
  assert (Hs : s <> "") by (intros ->; discriminate Hchars).
  pose proof (age_field_not_numeric env req s Hget Hs
                (foreign_character_not_numeric env s Hascii Hchars)) as Ha.
  eexists. split; [| exact (form_views_raise env req user_id st _ Hm Ha)].
  reflexivity.
Qed.

(** ** The edit view on an error status *)

(** X20: for every client or server error status the first notification of
    a failed update carries the generic text, whatever the body says. *)
Theorem edit_user_error_status_generic_text env req user_id st age r :
  method req = "POST" ->
  age_field env req = inr age ->
  network env (update_call env user_id (user_payload req age)) = Answers r ->
  400 <= status_code r < 600 ->
  exists later,
    flashes (snd (edit_user env req user_id st)) =
      (flashes st
       ++ mkNote "error" "Error: Failed to update user" :: later)%list.
Proof.
  intros Hm Ha Hn Hs.
  destruct (edit_user_post env req user_id st age (Some r) Hm Ha)
    as (st1 & Hfl & _ & ->); [rewrite Hn; reflexivity |].
  cbn [status_is].
  replace (status_code r =? 200) with false
    by (symmetry; apply Z.eqb_neq; lia).
  cbn [error_text].
  pose proof (truthy_error_status r Hs) as Hf. cbn [truthy] in Hf.
  rewrite Hf.
  change ("Error: " ++ "Failed to update user")
    with "Error: Failed to update user".
  destruct (keeps_get_user_for_editing env user_id
              (queued st1 (mkNote "error" "Error: Failed to update user")))
    as ((later & Hlater) & _).
  exists later. rewrite Hlater. cbn [queued flashes].
  rewrite Hfl, <- app_assoc. reflexivity.
Qed.

(** ** Start-up *)

Lemma ascii_lower_t c : ascii_lower c = "t"%char <-> either_case "t" "T" c.
Proof.
  unfold either_case.
  destruct c as [[] [] [] [] [] [] [] []]; vm_compute;
    split; intros H; try discriminate H;
    try (destruct H as [H | H]; discriminate H);
    auto.
Qed.

Lemma ascii_lower_r c : ascii_lower c = "r"%char <-> either_case "r" "R" c.
Proof.
  unfold either_case.
  destruct c as [[] [] [] [] [] [] [] []]; vm_compute;
    split; intros H; try discriminate H;
    try (destruct H as [H | H]; discriminate H);
    auto.
Qed.

Lemma ascii_lower_u c : ascii_lower c = "u"%char <-> either_case "u" "U" c.
Proof.
  unfold either_case.
  destruct c as [[] [] [] [] [] [] [] []]; vm_compute;
    split; intros H; try discriminate H;
    try (destruct H as [H | H]; discriminate H);
    auto.
Qed.

Lemma ascii_lower_e c : ascii_lower c = "e"%char <-> either_case "e" "E" c.
Proof.
  unfold either_case.
  destruct c as [[] [] [] [] [] [] [] []]; vm_compute;
    split; intros H; try discriminate H;
    try (destruct H as [H | H]; discriminate H);
    auto.
Qed.

Lemma lower_ascii_true s :
  lower_ascii s = "true" <->
  exists a b c d,
    s = String a (String b (String c (String d ""))) /\
    either_case "t" "T" a /\ either_case "r" "R" b /\
    either_case "u" "U" c /\ either_case "e" "E" d.
Proof.
  split.
  - destruct s as [| a [| b [| c [| d [| x r]]]]]; cbn [lower_ascii];
      intros H; try discriminate H.
    injection H as Ha Hb Hc Hd.
    exists a, b, c, d. split; [reflexivity |].
    rewrite <- ascii_lower_t, <- ascii_lower_r, <- ascii_lower_u,
      <- ascii_lower_e.
    auto.
  - intros (a & b & c & d & -> & Ha & Hb & Hc & Hd).
    apply ascii_lower_t in Ha. apply ascii_lower_r in Hb.
    apply ascii_lower_u in Hc. apply ascii_lower_e in Hd.
    cbn [lower_ascii]. rewrite Ha, Hb, Hc, Hd. reflexivity.
Qed.

(** X24: without a PORT in the environment the server is started on port
    8000 of every interface; with one, the text goes through [int], so a
    PORT that is not numeric, the empty text included, ends the start-up
    with a [ValueError] before [app.run] is reached. *)
Theorem main_port_policy env unicode_lower environ :
  (getenv environ "PORT" = None ->
   exists debug,
     main env unicode_lower environ = inr (mkRunArgs "0.0.0.0" 8000 debug)) /\
  (forall s,
     getenv environ "PORT" = Some s ->
     numeric env s = false ->
     exists e,
       exc_class_of e = ValueError /\
       main env unicode_lower environ = inl e) /\
  (getenv environ "PORT" = Some "" ->
   exists e, main env unicode_lower environ = inl e).
Proof.
  unfold main. repeat split.
  - intros ->. eexists. reflexivity.
  - intros s -> Hn. unfold py_int. unfold numeric in Hn.
    destruct (PyLong_FromString _); [discriminate Hn |].
    eexists. split; [| reflexivity]. reflexivity.
  - intros ->. eexists. reflexivity.
Qed.

(** X25: when the server starts with an ASCII value in DEBUG, debug mode is
    on exactly when that value is the word [true] in any mix of upper and
    lower case; [1], [yes] or [on] leave it off. *)
Theorem main_debug_flag env unicode_lower environ s args :
  main env unicode_lower environ = inr args ->
  getenv environ "DEBUG" = Some s ->
  is_ascii s = true ->
  (debug args = true <->
   exists a b c d,
     s = String a (String b (String c (String d ""))) /\
     either_case "t" "T" a /\ either_case "r" "R" b /\
     either_case "u" "U" c /\ either_case "e" "E" d).
Proof.
  unfold main. intros Hmain Hget Hascii.
  destruct (match getenv environ "PORT" with
            | Some s0 => py_int env s0
            | None => inr 8000
            end) as [e | p]; [discriminate Hmain |].
  injection Hmain as <-. cbn [debug].
  rewrite Hget. unfold str_lower. rewrite Hascii.
  rewrite String.eqb_eq. apply lower_ascii_true.
Qed.

(** ** The further properties at the samples *)

Lemma make_api_request_unsupported_witness :
  make_api_request (world two_users) "get" "/users" None fresh
    = (Raise (mkExc ValueError "Unsupported method: get"), fresh).
Proof.
  apply (make_api_request_unsupported (world two_users) "get" "/users" None
           fresh).
  intros [H | [H | [H | H]]]; discriminate H.
Defined.

Lemma make_api_request_sends_one_call_witness :
  calls (snd (make_api_request (world connection_refused) "GET" "/users"
                (Some alice) fresh))
    = [mkCall "GET" "http://backend:5000/users" None 10] /\
  flashes (snd (make_api_request (world connection_refused) "GET" "/users"
                  (Some alice) fresh))
    = [].
Proof.
  apply (make_api_request_sends_one_call (world connection_refused) "GET"
           "/users" (Some alice) fresh).
  left. reflexivity.
Defined.

Lemma make_api_request_outcomes_witness :
  fst (make_api_request (world maintenance) "PUT" "/users/7" (Some alice)
         fresh)
    = Return (Some (mkResponse 503
                      (inr (VDict [("error", VStr "down for maintenance")])))).
Proof.
  apply (proj1 (make_api_request_outcomes (world maintenance) "PUT"
                  "/users/7" (Some alice) fresh
                  (or_intror (or_intror (or_introl eq_refl))))).
  reflexivity.
Defined.

Lemma index_always_renders_witness :
  exists users added,
    fst (index (world garbled) fresh)
      = Return (index_page (world garbled) users) /\
    flashes (snd (index (world garbled) fresh)) = added /\
    (List.length added <= 1)%nat /\
    calls (snd (index (world garbled) fresh))
      = [index_call (world garbled)].
Proof.
  apply (index_always_renders (world garbled) fresh).
  - intros e H. discriminate H.
  - intros r e H. injection H as <-. intros H. injection H as <-.
    reflexivity.
Defined.

Lemma index_unreadable_body_witness :
  fst (index (world garbled) fresh)
    = Return (index_page (world garbled) (VList [])) /\
  flashes (snd (index (world garbled) fresh))
    = [mkNote "error" "Error connecting to backend API"] /\
  log (snd (index (world garbled) fresh))
    = [("ERROR",
        "Error loading users: Expecting value: line 1 column 1 (char 0)")].
Proof.
  apply (index_unreadable_body (world garbled) fresh
           (mkResponse 200
              (inl (mkExc JSONDecodeError
                      "Expecting value: line 1 column 1 (char 0)")))
           eq_refl eq_refl
           (mkExc JSONDecodeError "Expecting value: line 1 column 1 (char 0)")).
  left. split; reflexivity.
Defined.

Lemma index_passes_data_through_witness :
  fst (index (world single_record) fresh)
    = Return (index_page (world single_record) alice) /\
  flashes (snd (index (world single_record) fresh)) = [].
Proof.
  apply (index_passes_data_through (world single_record) fresh
           (mkResponse 200 (inr (VDict [("data", alice)])))
           [("data", alice)] alice);
    reflexivity.
Defined.

Lemma add_user_get_renders_form_witness :
  add_user (world connection_refused) browse fresh
    = (Return (Page "add_user.html" []), fresh).
Proof.
  apply (add_user_get_renders_form (world connection_refused) browse fresh).
  discriminate.
Defined.

Lemma add_user_redirects_iff_created_witness :
  fst (add_user (world created) (submit "30") fresh) = Return (RedirectTo "/") /\
  fst (add_user (world soft_failure) (submit "30") fresh)
    <> Return (RedirectTo "/") /\
  flashes (snd (add_user (world created) (submit "30") fresh))
    = [mkNote "success" "User created successfully! 🎉"].
Proof.
  pose proof (add_user_redirects_iff_created (world created) (submit "30")
                fresh (VInt 30)
                (Some (mkResponse 201 (inr (VDict [("data", alice)]))))
                eq_refl eq_refl eq_refl) as (Hiff & Hflash & _).
  pose proof (add_user_redirects_iff_created (world soft_failure)
                (submit "30") fresh (VInt 30)
                (Some (mkResponse 200
                         (inr (VDict [("error", VStr "quota exceeded")]))))
                eq_refl eq_refl eq_refl) as (Hiff' & _ & _).
  split; [apply Hiff; reflexivity |].
  split; [| apply Hflash; reflexivity].
  intros H. apply Hiff' in H. discriminate H.
Defined.

Lemma edit_user_get_form_witness :
  calls (snd (edit_user (world single_record) browse 7 fresh))
    = [fetch_call (world single_record) 7] /\
  fst (edit_user (world single_record) browse 7 fresh)
    = Return (Page "edit_user.html" [("user", alice)]) /\
  flashes (snd (edit_user (world single_record) browse 7 fresh)) = [].
Proof.
  destruct (edit_user_get_form (world single_record) browse 7 fresh
              (Some (mkResponse 200 (inr (VDict [("data", alice)])))))
    as (Hcalls & _ & Hform).
  - discriminate.
  - reflexivity.
  - split; [exact Hcalls |].
    exact (Hform _ _ eq_refl eq_refl eq_refl).
Defined.

Lemma edit_user_unreadable_body_raises_witness :
  fst (edit_user (world garbled) browse 7 fresh)
    = Raise (mkExc JSONDecodeError
               "Expecting value: line 1 column 1 (char 0)") /\
  flashes (snd (edit_user (world garbled) browse 7 fresh)) = [].
Proof.
  apply (edit_user_unreadable_body_raises (world garbled) browse 7 fresh
           (mkResponse 200
              (inl (mkExc JSONDecodeError
                      "Expecting value: line 1 column 1 (char 0)")))).
  - discriminate.
  - reflexivity.
  - reflexivity.
  - left. reflexivity.
Defined.

Lemma edit_user_success_witness :
  fst (edit_user (world two_users) (submit "30") 7 fresh)
    = Return (RedirectTo "/") /\
  flashes (snd (edit_user (world two_users) (submit "30") 7 fresh))
    = [mkNote "success" "User updated successfully! ✅"] /\
  calls (snd (edit_user (world two_users) (submit "30") 7 fresh))
    = [update_call (world two_users) 7 (user_payload (submit "30") (VInt 30))].
Proof.
  apply (edit_user_success (world two_users) (submit "30") 7 fresh (VInt 30)
           (Some (mkResponse 200
                    (inr (VDict [("data", VList [alice; bob])])))));
    reflexivity.
Defined.

Lemma edit_user_failure_two_calls_witness :
  calls (snd (edit_user (world connection_refused) (submit "30") 7 fresh))
    = [mkCall "PUT" "http://backend:5000/users/7"
         (Some (VDict [("name", VStr "Alice");
                       ("email", VStr "alice@example.com");
                       ("age", VInt 30)])) 10;
       mkCall "GET" "http://backend:5000/users/7" None 10].
Proof.
  apply (edit_user_failure_two_calls (world connection_refused) (submit "30")
           7 fresh (VInt 30) None);
    reflexivity.
Defined.

Lemma decimal_age_is_sent_witness :
  first_call_sent fresh (snd (add_user (world created) (submit "-3") fresh))
    = Some (create_call (world created)
              (user_payload (submit "-3") (VInt (-3)))) /\
  first_call_sent fresh
    (snd (edit_user (world created) (submit "-3") 7 fresh))
    = Some (update_call (world created) 7
              (user_payload (submit "-3") (VInt (-3)))).
Proof.
  apply (decimal_age_is_sent (world created) (submit "-3") 7 fresh (-3)).
  - reflexivity.
  - reflexivity.
  - vm_compute. lia.
Defined.

Lemma blank_age_raises_witness :
  exists e,
    exc_class_of e = ValueError /\
    add_user (world created) (submit "  ") fresh = (Raise e, fresh) /\
    edit_user (world created) (submit "  ") 7 fresh = (Raise e, fresh).
Proof.
  apply (blank_age_raises (world created) (submit "  ") 7 fresh "  ").
  - reflexivity.
  - reflexivity.
  - discriminate.
  - reflexivity.
Defined.

Lemma foreign_character_age_raises_witness :
  exists e,
    exc_class_of e = ValueError /\
    add_user (world created) (submit "30.5") fresh = (Raise e, fresh) /\
    edit_user (world created) (submit "30.5") 7 fresh = (Raise e, fresh).
Proof.
  apply (foreign_character_age_raises (world created) (submit "30.5") 7 fresh
           "30.5");
    reflexivity.
Defined.

Lemma add_user_error_status_generic_text_witness :
  flashes (snd (add_user (world maintenance) (submit "30") fresh))
    = [mkNote "error" "Error: Failed to create user"].
Proof.
  apply (add_user_error_status_generic_text (world maintenance) (submit "30")
           fresh (VInt 30)
           (mkResponse 503
              (inr (VDict [("error", VStr "down for maintenance")])))).
  - reflexivity.
  - reflexivity.
  - reflexivity.
  - cbn. lia.
Defined.

Lemma edit_user_error_status_generic_text_witness :
  exists later,
    flashes (snd (edit_user (world maintenance) (submit "30") 7 fresh))
      = mkNote "error" "Error: Failed to update user" :: later.
Proof.
  apply (edit_user_error_status_generic_text (world maintenance)
           (submit "30") 7 fresh (VInt 30)
           (mkResponse 503
              (inr (VDict [("error", VStr "down for maintenance")])))).
  - reflexivity.
  - reflexivity.
  - reflexivity.
  - cbn. lia.
Defined.

Lemma add_user_truthy_failure_shows_body_witness :
  flashes (snd (add_user (world soft_failure) (submit "30") fresh))
    = [mkNote "error" "Error: quota exceeded"].
Proof.
  apply (add_user_truthy_failure_shows_body (world soft_failure)
           (submit "30") fresh (VInt 30)
           (mkResponse 200 (inr (VDict [("error", VStr "quota exceeded")])))
           [("error", VStr "quota exceeded")] "quota exceeded").
  - reflexivity.
  - reflexivity.
  - reflexivity.
  - cbn. lia.
  - reflexivity.
  - reflexivity.
  - reflexivity.
Defined.

Lemma main_port_policy_witness :
  exists e, main (world created) no_unicode_lower empty_port = inl e.
Proof.
  apply (main_port_policy (world created) no_unicode_lower empty_port).
  reflexivity.
Defined.

Lemma main_debug_flag_witness :
  debug (mkRunArgs "0.0.0.0" 8080 true) = true <->
  exists a b c d,
    "TRUE" = String a (String b (String c (String d ""))) /\
    either_case "t" "T" a /\ either_case "r" "R" b /\
    either_case "u" "U" c /\ either_case "e" "E" d.
Proof.
  apply (main_debug_flag (world created) no_unicode_lower loud_debug "TRUE"
           (mkRunArgs "0.0.0.0" 8080 true));
    reflexivity.
Defined.
